(** * FinGenius: the model-training script [backend/scripts/train_models.py]

    A shallow embedding of the class [FinGeniusMLTrainer] and a verification
    of its synthetic-data generators, of its best-model selection and of its
    persistence layer ([save_models] / [load_models]).

    Conventions of the embedding.
    - Python floats are binary64 values, taken from the Standard Library's
      executable specification of IEEE-754 ([SpecFloat], precision 53,
      [emax] 1024).
    - A Python [dict] is an insertion-ordered association list.
    - A method is a computation in a state-and-exception monad over a
      [world]: the fields of [self], the files on disk, the log and numpy's
      global random state.
    - Calls into numpy's random generator, pandas and scikit-learn are the
      operations of two interfaces ([NumPy] and [Library]); the script is
      verified against every implementation of them. *)

From Stdlib Require Import ZArith List Bool Lia Ascii.
From Stdlib Require Import Floats.SpecFloat.
From stdpp Require Import gmap strings list.

(** ** Python exceptions and results *)

Inductive exn :=
| ValueError (msg : string)
| KeyError (key : string)
| AttributeError (msg : string)
| OverflowError (msg : string)
| JSONDecodeError (path : string)
| UnpicklingError (path : string)
| FileNotFoundError (path : string)
| LibraryError (msg : string).

Inductive result (A : Type) :=
| Ok (a : A)
| Raise (e : exn).
Arguments Ok {A} a.
Arguments Raise {A} e.

Definition is_ok {A} (r : result A) : bool :=
  match r with Ok _ => true | Raise _ => false end.

(** ** binary64 arithmetic *)

Module Float.

Definition prec : Z := 53.
Definition emax : Z := 1024.

Definition mul : spec_float -> spec_float -> spec_float := SFmul prec emax.
Definition add : spec_float -> spec_float -> spec_float := SFadd prec emax.
Definition div : spec_float -> spec_float -> spec_float := SFdiv prec emax.
Definition ltb : spec_float -> spec_float -> bool := SFltb.

(** Nearest binary64 value of an integer (ties to even). *)
Definition of_Z (z : Z) : spec_float := binary_normalize prec emax z 0 false.

Definition zero : spec_float := S754_zero false.
Definition one : spec_float := Eval vm_compute in of_Z 1.

(** Decimal literals of the script, as the doubles Python reads them. *)
Definition lit (num den : Z) : spec_float := div (of_Z num) (of_Z den).

Definition is_nan (x : spec_float) : bool :=
    match x with S754_nan => true | _ => false end.

(** [float(n)] for a Python int. *)
Definition of_int (n : Z) : result spec_float :=
    match of_Z n with
    | S754_infinity _ => Raise (OverflowError "int too large to convert to float")
    | x => Ok x
    end.

(** [int(x)]: truncation toward zero. *)
Definition to_int (x : spec_float) : result Z :=
    match x with
    | S754_zero _ => Ok 0%Z
    | S754_finite s m e =>
        Ok (cond_Zopp s
              (match e with
               | Zneg p => Z.pos m / 2 ^ Z.pos p
               | _ => Z.pos m * 2 ^ e
               end))%Z
    | S754_infinity _ => Raise (OverflowError "cannot convert float infinity to integer")
    | S754_nan => Raise (ValueError "cannot convert float NaN to integer")
    end.

(** [n * x] with [n] a Python int and [x] a float. *)
Definition int_mul (n : Z) (x : spec_float) : result spec_float :=
    match of_int n with
    | Ok fn => Ok (mul fn x)
    | Raise e => Raise e
    end.

(** [np.maximum(a, b)] on scalars: a NaN operand is propagated. *)
Definition maximum (a b : spec_float) : spec_float :=
    if is_nan a then a else if is_nan b then b else if ltb a b then b else a.

#[global] Instance spec_float_eq_dec : EqDecision spec_float.
Proof. solve_decision. Defined.

End Float.

(** The literal [0.8] of [_generate_fraud_data]. *)
Definition f0_8 : spec_float := Eval vm_compute in Float.lit 8 10.

Example f0_8_bits : f0_8 = S754_finite false 7205759403792794 (-53).
Proof. reflexivity. Qed.

(** ** Python dictionaries: insertion-ordered association lists *)

Section dict.
Context {V : Type}.

Definition dict : Type := list (string * V).

Fixpoint dict_get (k : string) (d : dict) : option V :=
    match d with
    | [] => None
    | (k', v) :: d' => if decide (k = k') then Some v else dict_get k d'
    end.

(** [d[k] = v]: an existing key keeps its position, a new key is appended. *)
Fixpoint dict_set (k : string) (v : V) (d : dict) : dict :=
    match d with
    | [] => [(k, v)]
    | (k', v') :: d' =>
        if decide (k = k') then (k, v) :: d' else (k', v') :: dict_set k v d'
    end.

Definition dict_keys (d : dict) : list string := d.*1.
Definition dict_items (d : dict) : list (string * V) := d.

(** A dictionary holds each key once. *)
Definition dict_wf (d : dict) : Prop := NoDup (dict_keys d).

End dict.
Arguments dict V : clear implicits.

(** ** numpy arrays and pandas tables *)

(** An array element: a float, an integer, a string, or a timestamp
    (datetime64, an integer count since the epoch). *)
Inductive scalar :=
| SFloat (x : spec_float)
| SInt (n : Z)
| SStr (s : string)
| STime (t : Z).

(** One-dimensional arrays, and two-dimensional arrays given by their columns. *)
Inductive ndarray :=
| Array1D (v : list scalar)
| Array2D (columns : list (list scalar)).

(** A [DataFrame] keeps its columns in insertion order. *)
Definition DataFrame : Type := dict (list scalar).

(** [pd.DataFrame(d)] for a dict of arrays. *)
Definition pd_DataFrame (d : dict (list scalar)) : result DataFrame :=
  match d with
  | [] => Ok []
  | (_, c) :: rest =>
      if forallb (fun kc => Nat.eqb (length kc.2) (length c)) rest
      then Ok d
      else Raise (ValueError "All arrays must be of the same length")
  end.

#[global] Instance scalar_eq_dec : EqDecision scalar.
Proof. solve_decision. Defined.

(** [len(df)] *)
Definition df_len (df : DataFrame) : nat :=
  match df with
  | [] => 0
  | (_, c) :: _ => length c
  end.

(** The number of rows that carry the positive fraud label, [is_fraud == 1.0]. *)
Definition fraud_rows (df : DataFrame) : nat :=
  match dict_get "is_fraud" df with
  | Some c => length (filter (λ s, s = SFloat Float.one) c)
  | None => 0
  end.

(** [df[name].values] *)
Definition df_column (name : string) (df : DataFrame) : result (list scalar) :=
  match dict_get name df with
  | Some c => Ok c
  | None => Raise (KeyError name)
  end.

(** [df[names].values] *)
Fixpoint df_columns (names : list string) (df : DataFrame) : result (list (list scalar)) :=
  match names with
  | [] => Ok []
  | n :: names' =>
      match dict_get n df with
      | None => Raise (KeyError n)
      | Some c =>
          match df_columns names' df with
          | Ok cs => Ok (c :: cs)
          | Raise e => Raise e
          end
      end
  end.

(** Element-wise binary operation on two arrays of floats. *)
Definition elementwise (f : spec_float -> spec_float -> spec_float)
  (a b : list spec_float) : result (list spec_float) :=
  if Nat.eqb (length a) (length b)
  then Ok (zip_with f a b)
  else Raise (ValueError "operands could not be broadcast together").

(** ** The libraries the script calls *)

(** numpy: the global random generator and [np.sin].  A draw of [n] values
    returns them with the generator's next state. *)
Class NumPy := {
  rng : Type;
  rng_seed : Z -> rng;
  rng_normal : spec_float -> spec_float -> nat -> rng -> list spec_float * rng;
  rng_randint : Z -> Z -> nat -> rng -> list Z * rng;
  rng_uniform : spec_float -> spec_float -> nat -> rng -> list spec_float * rng;
  rng_random : rng -> spec_float * rng;
  rng_randint1 : Z -> Z -> rng -> Z * rng;
  rng_choice : list string -> nat -> rng -> list string * rng;
  np_sin : spec_float -> spec_float;
  rng_normal_length : forall loc scale n g, length (rng_normal loc scale n g).1 = n;
  rng_randint_length : forall lo hi n g, length (rng_randint lo hi n g).1 = n;
  rng_uniform_length : forall lo hi n g, length (rng_uniform lo hi n g).1 = n;
}.

(** The estimators the script constructs, with the keyword arguments it gives. *)
Inductive estimator :=
| RandomForestClassifier (n_estimators random_state : Z)
| MLPClassifier (hidden_layer_sizes : list Z) (max_iter random_state : Z)
    (learning_rate : string)
| SVC (kernel : string) (probability : bool) (random_state : Z)
| MultinomialNB
| IsolationForest (contamination : spec_float) (random_state n_estimators : Z).

Inductive transform :=
| StandardScaler
| TfidfVectorizer (max_features : Z) (stop_words : string) (ngram_range : Z * Z).

(** pandas and scikit-learn.  Every call may raise; what a fit learns is
    opaque. *)
Class Library := {
  model_params : Type;
  transform_params : Type;
  (* pandas *)
  date_range : string -> Z -> string -> result (list Z);
  dt_dayofyear : Z -> Z;
  dt_dayofweek : Z -> Z;
  dt_day : Z -> Z;
  dt_month : Z -> Z;
  series_shift : Z -> list scalar -> list scalar;
  series_rolling_mean : Z -> list scalar -> list scalar;
  frame_dropna : DataFrame -> DataFrame;
  (* sklearn.model_selection *)
  train_test_split :
    ndarray -> ndarray -> spec_float -> Z -> option ndarray ->
    result (ndarray * ndarray * ndarray * ndarray);
  (* transformers *)
  fit_transform : transform -> ndarray -> result (transform_params * ndarray);
  transform_apply : transform -> transform_params -> ndarray -> result ndarray;
  (* estimators *)
  estimator_fit : estimator -> ndarray -> option ndarray -> result model_params;
  estimator_score : estimator -> model_params -> ndarray -> ndarray -> result spec_float;
  estimator_predict : estimator -> model_params -> ndarray -> result ndarray;
  classification_report : ndarray -> ndarray -> result string;
  (* string formatting of floats, [f"{x:.4f}"] *)
  format_4f : spec_float -> string;
}.

(** ** The state-and-exception monad *)

(** A computation reads and updates a state [S]; when it raises, the state
    reached so far is kept, as in Python. *)
Definition M (S A : Type) : Type := S -> result A * S.

Definition ret {S A} (a : A) : M S A := fun s => (Ok a, s).

Definition bind {S A B} (m : M S A) (k : A -> M S B) : M S B :=
  fun s =>
    match m s with
    | (Ok a, s') => k a s'
    | (Raise e, s') => (Raise e, s')
    end.

Definition raise {S A} (e : exn) : M S A := fun s => (Raise e, s).

(** A library call that touches no state. *)
Definition lift {S A} (r : result A) : M S A := fun s => (r, s).

Definition gets {S A} (f : S -> A) : M S A := fun s => (Ok (f s), s).
Definition modify {S} (f : S -> S) : M S unit := fun s => (Ok tt, f s).

Notation "'let!' x ':=' m 'in' k" := (bind m (fun x => k))
  (at level 10, x name, m at level 100, k at level 200).
Notation "'let!' ' p ':=' m 'in' k" := (bind m (fun p => k))
  (at level 10, p pattern, m at level 100, k at level 200).
Notation "'do!' m 'in' k" := (bind m (fun _ => k))
  (at level 10, m at level 100, k at level 200).

(** [for x in l: body(x)] *)
Fixpoint for_each {S A} (l : list A) (body : A -> M S unit) : M S unit :=
  match l with
  | [] => ret tt
  | x :: l' => do! body x in for_each l' body
  end.

(** A [for] loop that updates local variables [acc]. *)
Fixpoint for_fold {S A B} (l : list A) (acc : B) (body : B -> A -> M S B) : M S B :=
  match l with
  | [] => ret acc
  | x :: l' => let! acc' := body acc x in for_fold l' acc' body
  end.

(** [sep.join(l)] *)
Fixpoint join (sep : string) (l : list string) : string :=
  match l with
  | [] => ""
  | [s] => s
  | s :: l' => s +:+ sep +:+ join sep l'
  end.

(** ** The trainer *)

Inductive level := INFO | WARNING.

Record metadata := {
  trained_at : string;
  md_models : list string;
  md_scalers : list string;
  version : string;
}.

Section Trainer.
Context `{NP : NumPy} `{LIB : Library}.

(** The Python values the two mappings of the driver hold. *)
Inductive pyobj :=
| PyNone
| PyEstimator (e : estimator) (p : model_params)
| PyTransform (t : transform) (p : transform_params).

(** A file holds a joblib-serialized object, a JSON document with the
    manifest's schema, or anything else. *)
Inductive file :=
| FJoblib (o : pyobj)
| FJson (md : metadata)
| FRaw (bytes : string).

Record world := {
  models : dict pyobj;
  scalers : dict pyobj;
  encoders : dict pyobj;
  models_dir : string;
  data_dir : string;
  disk : gmap string file;
  log : list (level * string);
  np_random : rng;
  tf_seed : option Z;
}.

Definition set_models (f : dict pyobj -> dict pyobj) (w : world) : world :=
  {| models := f (models w); scalers := scalers w; encoders := encoders w;
     models_dir := models_dir w; data_dir := data_dir w; disk := disk w;
     log := log w; np_random := np_random w; tf_seed := tf_seed w |}.

Definition set_scalers (f : dict pyobj -> dict pyobj) (w : world) : world :=
  {| models := models w; scalers := f (scalers w); encoders := encoders w;
     models_dir := models_dir w; data_dir := data_dir w; disk := disk w;
     log := log w; np_random := np_random w; tf_seed := tf_seed w |}.

Definition set_disk (f : gmap string file -> gmap string file) (w : world) : world :=
  {| models := models w; scalers := scalers w; encoders := encoders w;
     models_dir := models_dir w; data_dir := data_dir w; disk := f (disk w);
     log := log w; np_random := np_random w; tf_seed := tf_seed w |}.

Definition set_log (f : list (level * string) -> list (level * string)) (w : world) : world :=
  {| models := models w; scalers := scalers w; encoders := encoders w;
     models_dir := models_dir w; data_dir := data_dir w; disk := disk w;
     log := f (log w); np_random := np_random w; tf_seed := tf_seed w |}.

Definition set_np_random (g : rng) (w : world) : world :=
  {| models := models w; scalers := scalers w; encoders := encoders w;
     models_dir := models_dir w; data_dir := data_dir w; disk := disk w;
     log := log w; np_random := g; tf_seed := tf_seed w |}.

(** [logger.info(msg)] and [logger.warning(msg)] *)
Definition logger_info (msg : string) : M world unit :=
  modify (set_log (fun l => l ++ [(INFO, msg)])).
Definition logger_warning (msg : string) : M world unit :=
  modify (set_log (fun l => l ++ [(WARNING, msg)])).

(** [FinGeniusMLTrainer.__init__]: empty containers, seeded generators.  The
    two [mkdir(exist_ok=True)] calls create directories only; the disk model
    holds files. *)
Definition init (models_dir' data_dir' : string) (w : world) : world :=
  {| models := []; scalers := []; encoders := [];
     models_dir := models_dir'; data_dir := data_dir'; disk := disk w;
     log := log w; np_random := rng_seed 42; tf_seed := Some 42%Z |}.

(** *** numpy calls on the global generator *)

Definition np_random_seed (s : Z) : M world unit :=
  modify (set_np_random (rng_seed s)).

Definition negative_dimensions : exn :=
  ValueError "negative dimensions are not allowed".

(** A draw of [n] values with a draw function of the generator. *)
Definition draw {A} (f : nat -> rng -> list A * rng) (wrap : A -> scalar) (n : Z)
  : M world (list scalar) :=
  fun w =>
    if (n <? 0)%Z then (Raise negative_dimensions, w)
    else let '(v, g) := f (Z.to_nat n) (np_random w) in
         (Ok (wrap <$> v), set_np_random g w).

Definition np_random_normal (loc scale : Z) (n : Z) : M world (list scalar) :=
  draw (rng_normal (Float.of_Z loc) (Float.of_Z scale)) SFloat n.
Definition np_random_randint (lo hi : Z) (n : Z) : M world (list scalar) :=
  draw (rng_randint lo hi) SInt n.
Definition np_random_uniform (lo hi : spec_float) (n : Z) : M world (list scalar) :=
  draw (rng_uniform lo hi) SFloat n.
Definition np_random_choice (a : list string) (n : Z) : M world (list scalar) :=
  draw (rng_choice a) SStr n.

Definition np_random_random : M world spec_float :=
  fun w => let '(x, g) := rng_random (np_random w) in (Ok x, set_np_random g w).
Definition np_random_randint1 (lo hi : Z) : M world Z :=
  fun w => let '(x, g) := rng_randint1 lo hi (np_random w) in (Ok x, set_np_random g w).

(** [np.zeros(n)], [np.ones(n)] *)
Definition np_full (x : spec_float) (n : Z) : M world (list scalar) :=
  if (n <? 0)%Z then raise negative_dimensions
  else ret (replicate (Z.to_nat n) (SFloat x)).
Definition np_zeros : Z -> M world (list scalar) := np_full Float.zero.
Definition np_ones : Z -> M world (list scalar) := np_full Float.one.

(** [np.pi] *)
Definition np_pi : spec_float := S754_finite false 7074237752028440 (-51).

(** *** Synthetic data *)

(** A literal with one decimal digit: [dec 7] is [0.7]. *)
Definition dec (tenths : Z) : spec_float := Float.lit tenths 10.

(** The literal [0.5] of [_generate_sentiment_data]. *)
Definition f0_5 : spec_float := Eval vm_compute in dec 5.

(** The loop of [_generate_fraud_data] that joins the two populations:
    [combined_data[key] = np.concatenate([normal_data[key], fraud_data[key]])]. *)
Definition combine (normal_data fraud_data : dict (list scalar))
  : M world (dict (list scalar)) :=
  for_fold (dict_keys normal_data) []
    (fun combined_data key =>
       let! a := lift (df_column key normal_data) in
       let! b := lift (df_column key fraud_data) in
       ret (dict_set key (a ++ b) combined_data)).

Definition _generate_fraud_data (n_samples : Z) : M world DataFrame :=
  do! np_random_seed 42 in
  (* Normal transactions (80%) *)
  let! x := lift (Float.int_mul n_samples f0_8) in
  let! n_normal := lift (Float.to_int x) in
  let! amount := np_random_normal 100 50 n_normal in
  let! hour := np_random_randint 0 24 n_normal in
  let! day_of_week := np_random_randint 0 7 n_normal in
  let! location_similarity := np_random_uniform (dec 7) (dec 10) n_normal in
  let! merchant_category := np_random_uniform (dec 3) (dec 9) n_normal in
  let! user_behavior_score := np_random_uniform (dec 6) (dec 10) n_normal in
  let! device_fingerprint := np_random_uniform (dec 8) (dec 10) n_normal in
  let! transaction_frequency := np_random_uniform (dec 4) (dec 8) n_normal in
  let! amount_pattern := np_random_uniform (dec 5) (dec 9) n_normal in
  let! time_pattern := np_random_uniform (dec 6) (dec 9) n_normal in
  let! is_fraud := np_zeros n_normal in
  let normal_data : dict (list scalar) :=
    [("amount", amount); ("hour", hour); ("day_of_week", day_of_week);
     ("location_similarity", location_similarity);
     ("merchant_category", merchant_category);
     ("user_behavior_score", user_behavior_score);
     ("device_fingerprint", device_fingerprint);
     ("transaction_frequency", transaction_frequency);
     ("amount_pattern", amount_pattern); ("time_pattern", time_pattern);
     ("is_fraud", is_fraud)] in
  (* Fraudulent transactions (20%) *)
  let n_fraud := (n_samples - n_normal)%Z in
  let! amount := np_random_normal 500 200 n_fraud in
  let! hour := np_random_randint 0 24 n_fraud in
  let! day_of_week := np_random_randint 0 7 n_fraud in
  let! location_similarity := np_random_uniform (dec 0) (dec 3) n_fraud in
  let! merchant_category := np_random_uniform (dec 0) (dec 5) n_fraud in
  let! user_behavior_score := np_random_uniform (dec 0) (dec 4) n_fraud in
  let! device_fingerprint := np_random_uniform (dec 0) (dec 5) n_fraud in
  let! transaction_frequency := np_random_uniform (dec 0) (dec 3) n_fraud in
  let! amount_pattern := np_random_uniform (dec 0) (dec 4) n_fraud in
  let! time_pattern := np_random_uniform (dec 0) (dec 3) n_fraud in
  let! is_fraud := np_ones n_fraud in
  let fraud_data : dict (list scalar) :=
    [("amount", amount); ("hour", hour); ("day_of_week", day_of_week);
     ("location_similarity", location_similarity);
     ("merchant_category", merchant_category);
     ("user_behavior_score", user_behavior_score);
     ("device_fingerprint", device_fingerprint);
     ("transaction_frequency", transaction_frequency);
     ("amount_pattern", amount_pattern); ("time_pattern", time_pattern);
     ("is_fraud", is_fraud)] in
  (* Combine data *)
  let! combined_data := combine normal_data fraud_data in
  lift (pd_DataFrame combined_data).

(** The float of each element of an array of floats. *)
Definition float_of (s : scalar) : spec_float :=
  match s with
  | SFloat x => x
  | SInt n => Float.of_Z n
  | _ => S754_nan
  end.

Definition _generate_spending_data (n_samples : Z) : M world DataFrame :=
  do! np_random_seed 42 in
  (* Generate time series data *)
  let! dates := lift (date_range "2023-01-01" n_samples "D") in
  (* Base spending with seasonal patterns *)
  let base_spending :=
    (fun d => Float.add (Float.of_Z 100)
                (Float.mul (Float.of_Z 20)
                   (np_sin (Float.div
                              (Float.mul (Float.mul (Float.of_Z 2) np_pi)
                                 (Float.of_Z (dt_dayofyear d)))
                              (Float.of_Z 365))))) <$> dates in
  (* Add weekly patterns *)
  let weekly_pattern :=
    (fun d => Float.mul (Float.of_Z 10)
                (np_sin (Float.div
                           (Float.mul (Float.mul (Float.of_Z 2) np_pi)
                              (Float.of_Z (dt_dayofweek d)))
                           (Float.of_Z 7)))) <$> dates in
  (* Add random noise *)
  let! noise := np_random_normal 0 15 n_samples in
  (* Generate features *)
  let! s1 := lift (elementwise Float.add base_spending weekly_pattern) in
  let! s2 := lift (elementwise Float.add s1 (float_of <$> noise)) in
  let spending := (fun x => SFloat (Float.maximum (Float.of_Z 0) x)) <$> s2 in
  let! income := np_random_normal 200 50 n_samples in
  let data : dict (list scalar) :=
    [("date", STime <$> dates);
     ("spending", spending);
     ("income", income);
     ("day_of_month", (fun d => SInt (dt_day d)) <$> dates);
     ("day_of_week", (fun d => SInt (dt_dayofweek d)) <$> dates);
     ("month", (fun d => SInt (dt_month d)) <$> dates);
     ("is_weekend", (fun d => SInt (if (5 <=? dt_dayofweek d)%Z then 1 else 0)) <$> dates);
     ("is_month_end", (fun d => SInt (if (25 <=? dt_day d)%Z then 1 else 0)) <$> dates)] in
  lift (pd_DataFrame data).

Definition positive_terms : list string :=
  ["profit"; "gain"; "increase"; "growth"; "positive"; "good"; "excellent";
   "successful"; "profitable"; "rising"; "bullish"; "optimistic"; "strong";
   "recovery"; "surge"; "rally"; "breakthrough"; "milestone"; "achievement"].

Definition negative_terms : list string :=
  ["loss"; "decrease"; "decline"; "negative"; "bad"; "poor"; "failing";
   "unprofitable"; "falling"; "bearish"; "pessimistic"; "debt"; "crash";
   "crisis"; "recession"; "bankruptcy"; "default"; "volatile"; "risky"].

(** [str(w)] for each element of an array of strings. *)
Definition str_of (s : scalar) : string :=
  match s with SStr x => x | _ => "" end.

Definition _generate_sentiment_data (n_samples : Z) : M world DataFrame :=
  do! np_random_seed 42 in
  (* Generate sentences *)
  let! '(sentences, sentiments) :=
    for_fold (seq 0 (Z.to_nat n_samples)) ([], [])
      (fun '(sentences, sentiments) _ =>
         let! r := np_random_random in
         if Float.ltb f0_5 r then
           (* Positive sentence *)
           let! size := np_random_randint1 2 5 in
           let! words := np_random_choice positive_terms size in
           let sentence := "The market shows " +:+ join " " (str_of <$> words)
                           +:+ " with strong fundamentals." in
           ret (sentences ++ [SStr sentence], sentiments ++ [SStr "positive"])
         else
           (* Negative sentence *)
           let! size := np_random_randint1 2 5 in
           let! words := np_random_choice negative_terms size in
           let sentence := "Investors worry about " +:+ join " " (str_of <$> words)
                           +:+ " affecting returns." in
           ret (sentences ++ [SStr sentence], sentiments ++ [SStr "negative"])) in
  lift (pd_DataFrame [("text", sentences); ("sentiment", sentiments)]).

(** The three tables of [generate_synthetic_data]. *)
Record datasets := {
  fraud : DataFrame;
  spending : DataFrame;
  sentiment : DataFrame;
}.

Definition generate_synthetic_data (n_samples : Z) : M world datasets :=
  do! logger_info "Generating synthetic training data..." in
  (* Fraud detection data *)
  let! fraud_data := _generate_fraud_data n_samples in
  (* Spending prediction data *)
  let! spending_data := _generate_spending_data n_samples in
  (* Sentiment analysis data *)
  let! sentiment_data := _generate_sentiment_data (n_samples / 2)%Z in
  ret {| fraud := fraud_data; spending := spending_data; sentiment := sentiment_data |}.

(** *** Method calls on stored objects *)

(** [obj.predict(X)]: only a fitted estimator has the method. *)
Definition py_predict (obj : pyobj) (X : ndarray) : result ndarray :=
  match obj with
  | PyEstimator e p => estimator_predict e p X
  | PyNone => Raise (AttributeError "'NoneType' object has no attribute 'predict'")
  | PyTransform _ _ => Raise (AttributeError "object has no attribute 'predict'")
  end.

Definition newline : string := String "010"%char "".

(** *** Training *)

(** The three classifiers of [train_fraud_detection_model], in the order
    of its dict literal. *)
Definition fraud_candidates : dict estimator :=
  [("random_forest", RandomForestClassifier 100 42);
   ("neural_network", MLPClassifier [64; 32]%Z 500 42 "constant");
   ("svm", SVC "rbf" true 42)].

(** The body of its loop; [best] holds the locals [best_model] and
    [best_score]. *)
Definition fraud_step (X_train_scaled y_train X_test_scaled y_test : ndarray)
  (best : pyobj * spec_float) (item : string * estimator)
  : M world (pyobj * spec_float) :=
  let '(best_model, best_score) := best in
  let '(name, model) := item in
  do! logger_info ("Training " +:+ name +:+ "...") in
  let! p := lift (estimator_fit model X_train_scaled (Some y_train)) in
  let! score := lift (estimator_score model p X_test_scaled y_test) in
  do! logger_info (name +:+ " accuracy: " +:+ format_4f score) in
  if Float.ltb best_score score
  then ret (PyEstimator model p, score)
  else ret (best_model, best_score).

Definition train_fraud_detection_model (data : DataFrame) : M world (pyobj * pyobj) :=
  do! logger_info "Training fraud detection model..." in
  (* Prepare features *)
  let feature_columns :=
    ["amount"; "hour"; "day_of_week"; "location_similarity";
     "merchant_category"; "user_behavior_score"; "device_fingerprint";
     "transaction_frequency"; "amount_pattern"; "time_pattern"] in
  let! X := lift (df_columns feature_columns data) in
  let! y := lift (df_column "is_fraud" data) in
  (* Split data *)
  let! '(X_train, X_test, y_train, y_test) :=
    lift (train_test_split (Array2D X) (Array1D y) (dec 2) 42 (Some (Array1D y))) in
  (* Scale features *)
  let! '(scaler_params, X_train_scaled) := lift (fit_transform StandardScaler X_train) in
  let scaler := PyTransform StandardScaler scaler_params in
  let! X_test_scaled := lift (transform_apply StandardScaler scaler_params X_test) in
  (* Train multiple models *)
  let! '(best_model, best_score) :=
    for_fold (dict_items fraud_candidates) (PyNone, Float.zero)
      (fraud_step X_train_scaled y_train X_test_scaled y_test) in
  (* Save best model and scaler *)
  do! modify (set_models (dict_set "fraud_detection" best_model)) in
  do! modify (set_scalers (dict_set "fraud_detection" scaler)) in
  (* Evaluate best model *)
  let! y_pred := lift (py_predict best_model X_test_scaled) in
  do! logger_info ("Best fraud detection model accuracy: " +:+ format_4f best_score) in
  let! report := lift (classification_report y_test y_pred) in
  do! logger_info ("Classification report:" +:+ newline +:+ report) in
  ret (best_model, scaler).

(** The method assigns three columns to its argument before it rebinds the
    name to the result of [dropna]: the caller's table is changed.  The
    changed table is returned next to the method's own result. *)
Definition train_spending_prediction_model (data : DataFrame)
  : M world (pyobj * pyobj * DataFrame) :=
  do! logger_info "Training spending prediction model..." in
  (* Prepare features *)
  let feature_columns :=
    ["income"; "day_of_month"; "day_of_week"; "month"; "is_weekend"; "is_month_end"] in
  (* Create lag features *)
  let! s := lift (df_column "spending" data) in
  let data := dict_set "spending_lag1" (series_shift 1 s) data in
  let! s := lift (df_column "spending" data) in
  let data := dict_set "spending_lag7" (series_shift 7 s) data in
  let! s := lift (df_column "spending" data) in
  let data := dict_set "spending_rolling_mean" (series_rolling_mean 7 s) data in
  let callers_data := data in
  (* Drop NaN values *)
  let data := frame_dropna data in
  let! X := lift (df_columns
                    (feature_columns ++
                       ["spending_lag1"; "spending_lag7"; "spending_rolling_mean"]) data) in
  let! y := lift (df_column "spending" data) in
  (* Split data *)
  let! '(X_train, X_test, y_train, y_test) :=
    lift (train_test_split (Array2D X) (Array1D y) (dec 2) 42 None) in
  (* Scale features *)
  let! '(scaler_params, X_train_scaled) := lift (fit_transform StandardScaler X_train) in
  let scaler := PyTransform StandardScaler scaler_params in
  let! X_test_scaled := lift (transform_apply StandardScaler scaler_params X_test) in
  (* Train model *)
  let e := MLPClassifier [100; 50; 25]%Z 1000 42 "adaptive" in
  let! p := lift (estimator_fit e X_train_scaled (Some y_train)) in
  let model := PyEstimator e p in
  (* Save model and scaler *)
  do! modify (set_models (dict_set "spending_prediction" model)) in
  do! modify (set_scalers (dict_set "spending_prediction" scaler)) in
  (* Evaluate model *)
  let! score := lift (estimator_score e p X_test_scaled y_test) in
  do! logger_info ("Spending prediction model R² score: " +:+ format_4f score) in
  ret (model, scaler, callers_data).

Definition train_sentiment_analysis_model (data : DataFrame) : M world (pyobj * pyobj) :=
  do! logger_info "Training sentiment analysis model..." in
  (* Prepare data *)
  let! X := lift (df_column "text" data) in
  let! y := lift (df_column "sentiment" data) in
  (* Split data *)
  let! '(X_train, X_test, y_train, y_test) :=
    lift (train_test_split (Array1D X) (Array1D y) (dec 2) 42 (Some (Array1D y))) in
  (* Create TF-IDF vectorizer *)
  let t := TfidfVectorizer 1000 "english" (1, 2)%Z in
  (* Transform text data *)
  let! '(vectorizer_params, X_train_tfidf) := lift (fit_transform t X_train) in
  let vectorizer := PyTransform t vectorizer_params in
  let! X_test_tfidf := lift (transform_apply t vectorizer_params X_test) in
  (* Train model *)
  let! p := lift (estimator_fit MultinomialNB X_train_tfidf (Some y_train)) in
  let model := PyEstimator MultinomialNB p in
  (* Save model and vectorizer *)
  do! modify (set_models (dict_set "sentiment_analysis" model)) in
  do! modify (set_scalers (dict_set "sentiment_analysis" vectorizer)) in
  (* Evaluate model *)
  let! score := lift (estimator_score MultinomialNB p X_test_tfidf y_test) in
  do! logger_info ("Sentiment analysis model accuracy: " +:+ format_4f score) in
  ret (model, vectorizer).

Definition train_anomaly_detection_model (data : DataFrame) : M world pyobj :=
  do! logger_info "Training anomaly detection model..." in
  (* Use spending data for anomaly detection *)
  let! s := lift (df_column "spending" data) in
  let spending_values := Array2D [s] in
  (* Train isolation forest *)
  let e := IsolationForest (dec 1) 42 100 in
  let! p := lift (estimator_fit e spending_values None) in
  let model := PyEstimator e p in
  (* Save model *)
  do! modify (set_models (dict_set "anomaly_detection" model)) in
  do! logger_info "Anomaly detection model trained successfully" in
  ret model.

(** *** Persistence *)

(** [dir / name] *)
Definition path_join (dir name : string) : string := dir +:+ "/" +:+ name.

(** [path.exists()] *)
Definition path_exists (path : string) : M world bool :=
  gets (fun w => bool_decide (is_Some (disk w !! path))).

(** [joblib.dump(obj, path)] *)
Definition joblib_dump (obj : pyobj) (path : string) : M world unit :=
  modify (set_disk (<[path := FJoblib obj]>)).

(** [joblib.load(path)] *)
Definition joblib_load (path : string) : M world pyobj :=
  fun w =>
    match disk w !! path with
    | Some (FJoblib o) => (Ok o, w)
    | Some _ => (Raise (UnpicklingError path), w)
    | None => (Raise (FileNotFoundError path), w)
    end.

(** [with open(path, 'w') as f: json.dump(md, f, indent=2)] *)
Definition json_dump (md : metadata) (path : string) : M world unit :=
  modify (set_disk (<[path := FJson md]>)).

(** [with open(path, 'r') as f: json.load(f)] *)
Definition json_load (path : string) : M world metadata :=
  fun w =>
    match disk w !! path with
    | Some (FJson md) => (Ok md, w)
    | Some _ => (Raise (JSONDecodeError path), w)
    | None => (Raise (FileNotFoundError path), w)
    end.

(** The bodies of the two loops of [save_models]. *)
Definition save_model_entry (dir : string) (item : string * pyobj) : M world unit :=
  let '(name, model) := item in
  let model_path := path_join dir (name +:+ ".joblib") in
  do! joblib_dump model model_path in
  logger_info ("Saved " +:+ name +:+ " model to " +:+ model_path).

Definition save_scaler_entry (dir : string) (item : string * pyobj) : M world unit :=
  let '(name, scaler) := item in
  let scaler_path := path_join dir (name +:+ "_scaler.joblib") in
  do! joblib_dump scaler scaler_path in
  logger_info ("Saved " +:+ name +:+ " scaler to " +:+ scaler_path).

(** [now] is the value of [datetime.now().isoformat()] at the call. *)
Definition save_models (now : string) : M world unit :=
  do! logger_info "Saving models..." in
  let! dir := gets models_dir in
  let! ms := gets models in
  do! for_each (dict_items ms) (save_model_entry dir) in
  let! ss := gets scalers in
  do! for_each (dict_items ss) (save_scaler_entry dir) in
  (* Save model metadata *)
  let! ms := gets models in
  let! ss := gets scalers in
  let metadata :=
    {| trained_at := now; md_models := dict_keys ms; md_scalers := dict_keys ss;
       version := "1.0.0" |} in
  let metadata_path := path_join dir "metadata.json" in
  do! json_dump metadata metadata_path in
  logger_info ("Saved model metadata to " +:+ metadata_path).

(** The bodies of the two loops of [load_models]. *)
Definition load_model_entry (dir : string) (model_name : string) : M world unit :=
  let model_path := path_join dir (model_name +:+ ".joblib") in
  let! found := path_exists model_path in
  if found then
    let! o := joblib_load model_path in
    do! modify (set_models (dict_set model_name o)) in
    logger_info ("Loaded " +:+ model_name +:+ " model")
  else ret tt.

Definition load_scaler_entry (dir : string) (scaler_name : string) : M world unit :=
  let scaler_path := path_join dir (scaler_name +:+ ".joblib") in
  let! found := path_exists scaler_path in
  if found then
    let! o := joblib_load scaler_path in
    do! modify (set_scalers (dict_set scaler_name o)) in
    logger_info ("Loaded " +:+ scaler_name +:+ " scaler")
  else ret tt.

Definition load_models : M world unit :=
  do! logger_info "Loading models..." in
  let! dir := gets models_dir in
  let metadata_path := path_join dir "metadata.json" in
  let! found := path_exists metadata_path in
  if negb found then
    logger_warning "No model metadata found. Models may not be trained."
  else
    let! metadata := json_load metadata_path in
    do! for_each (md_models metadata) (load_model_entry dir) in
    for_each (md_scalers metadata) (load_scaler_entry dir).

(** [generate_synthetic_data()] runs with its default of 10000 samples; the
    anomaly detector receives the spending table as the spending trainer
    left it. *)
Definition train_all_models (now : string) : M world unit :=
  do! logger_info "Starting ML model training..." in
  (* Generate synthetic data *)
  let! data := generate_synthetic_data 10000 in
  (* Train models *)
  let! _ := train_fraud_detection_model (fraud data) in
  let! '(_, _, spending') := train_spending_prediction_model (spending data) in
  let! _ := train_sentiment_analysis_model (sentiment data) in
  let! _ := train_anomaly_detection_model spending' in
  (* Save models *)
  do! save_models now in
  logger_info "All models trained and saved successfully!".

(** [main], after argument parsing. *)
Definition main (models_dir' data_dir' : string) (load_only : bool) (now : string)
  : M world unit :=
  do! modify (init models_dir' data_dir') in
  if load_only then
    do! load_models in
    logger_info "Models loaded successfully"
  else train_all_models now.

End Trainer.

(** ** A small implementation of the two interfaces

    Used to run the script on concrete inputs: a counter-based generator
    and a learner whose scores are given by a table. *)

Module Toy.

Definition mix (g : Z) : Z := ((g * 1103515245 + 12345) mod 2147483648)%Z.

(** The [n] integers from [g] on. *)
Fixpoint zrange (n : nat) (g : Z) : list Z :=
  match n with
  | O => []
  | S n' => g :: zrange n' (g + 1)%Z
  end.

(** [n] values read off the counter [g], which advances by [n]. *)
Definition counter_draw {A} (f : Z -> A) (n : nat) (g : Z) : list A * Z :=
  ((fun i => f (mix i)) <$> zrange n g, (g + Z.of_nat n)%Z).

Definition pick (a : list string) (z : Z) : string :=
  nth (Z.to_nat (z mod Z.of_nat (length a))) a "".

#[local] Instance numpy : NumPy.
Proof.
  refine {| rng := Z;
            rng_seed := fun s => s;
            rng_normal := fun loc scale => counter_draw (fun z => if Z.even z then loc else scale);
            rng_randint := fun lo hi => counter_draw (fun z => (lo + z mod (hi - lo))%Z);
            rng_uniform := fun lo hi => counter_draw (fun z => if Z.even z then lo else hi);
            rng_random := fun g => (if Z.even (mix g) then Float.one else Float.zero, (g + 1)%Z);
            rng_randint1 := fun lo hi g => ((lo + mix g mod (hi - lo))%Z, (g + 1)%Z);
            rng_choice := fun a => counter_draw (pick a);
            np_sin := fun x => x |};
    intros; unfold counter_draw; simpl; rewrite length_fmap;
    revert g; induction n as [|n IH]; intros g; simpl;
    first [reflexivity | f_equal; apply IH].
Defined.

Definition estimator_code (e : estimator) : Z :=
  match e with
  | RandomForestClassifier _ _ => 1
  | MLPClassifier _ _ _ _ => 2
  | SVC _ _ _ => 3
  | MultinomialNB => 4
  | IsolationForest _ _ _ => 5
  end.

(** A library whose held-out score of each estimator is [score]. *)
Definition library (score : estimator -> spec_float) : Library :=
  {| model_params := Z;
     transform_params := Z;
     date_range := fun _ n _ =>
       if (n <? 0)%Z then Raise (ValueError "Number of periods must be non-negative")
       else Ok (zrange (Z.to_nat n) 0);
     dt_dayofyear := fun d => (d mod 365 + 1)%Z;
     dt_dayofweek := fun d => ((d + 6) mod 7)%Z;
     dt_day := fun d => (d mod 28 + 1)%Z;
     dt_month := fun d => ((d / 28) mod 12 + 1)%Z;
     series_shift := fun k v =>
       replicate (Z.to_nat k) (SFloat S754_nan) ++ take (length v - Z.to_nat k) v;
     series_rolling_mean := fun _ v => v;
     frame_dropna := fun df => df;
     train_test_split := fun X y _ _ _ => Ok (X, X, y, y);
     fit_transform := fun _ X => Ok (7%Z, X);
     transform_apply := fun _ _ X => Ok X;
     estimator_fit := fun e _ _ => Ok (estimator_code e);
     estimator_score := fun e _ _ _ => Ok (score e);
     estimator_predict := fun _ _ _ => Ok (Array1D []);
     classification_report := fun _ _ => Ok "report";
     format_4f := fun _ => "0.0000" |}.

(** Accuracies 0.5, 0.9 and 0.7 for the three fraud classifiers. *)
Definition scores (e : estimator) : spec_float :=
  match e with
  | RandomForestClassifier _ _ => dec 5
  | MLPClassifier _ _ _ _ => dec 9
  | SVC _ _ _ => dec 7
  | _ => dec 8
  end.


(** A fresh process: nothing on disk, nothing logged. *)
Definition empty_world `{Library} : world :=
  {| models := []; scalers := []; encoders := [];
     models_dir := "models"; data_dir := "data"; disk := ∅;
     log := []; np_random := 0%Z; tf_seed := None |}.

(** The fraud table of ten samples the toy generator gives. *)
Definition fraud_table : DataFrame :=
  Eval vm_compute in
    match (_generate_fraud_data (LIB := library scores) 10 empty_world).1 with
    | Ok df => df
    | Raise _ => []
    end.

(** A driver that holds one fitted classifier and its fitted scaler. *)
Definition one_model_world `{Library} (m s : pyobj) : world :=
  {| models := [("fraud_detection", m)]; scalers := [("fraud_detection", s)];
     encoders := [];
     models_dir := "models"; data_dir := "data"; disk := ∅;
     log := []; np_random := 0%Z; tf_seed := None |}.

(** A models directory whose manifest lists a model that has no file. *)
Definition dangling_world `{Library} : world :=
  {| models := []; scalers := []; encoders := [];
     models_dir := "models"; data_dir := "data";
     disk := {[ "models/metadata.json" :=
                  FJson {| trained_at := "2024-01-01T00:00:00";
                           md_models := ["fraud_detection"]; md_scalers := [];
                           version := "1.0.0" |} ]};
     log := []; np_random := 0%Z; tf_seed := None |}.

End Toy.


(** * Verification *)

(** ** Dictionaries *)

Section dict_facts.
Context {V : Type}.
Implicit Types (d : dict V) (k : string) (v : V).

Lemma dict_get_set_eq k v d : dict_get k (dict_set k v d) = Some v.
Proof.
  induction d as [|[k' v'] d IH]; simpl.
  - by rewrite decide_True.
  - destruct (decide (k = k')) as [->|Hne]; simpl.
    + by rewrite decide_True.
    + by rewrite decide_False.
Qed.

Lemma dict_get_set_ne k k' v d :
  k ≠ k' → dict_get k' (dict_set k v d) = dict_get k' d.
Proof.
  intros Hne. induction d as [|[k0 v0] d IH]; simpl.
  - rewrite decide_False; [done | congruence].
  - destruct (decide (k = k0)) as [->|Hne0]; simpl.
    + rewrite !decide_False; [done | congruence | congruence].
    + by rewrite IH.
Qed.

(** Storing the value a key already has changes nothing. *)
Lemma dict_set_id k v d : dict_get k d = Some v → dict_set k v d = d.
Proof.
  induction d as [|[k' v'] d IH]; simpl; [done |].
  destruct (decide (k = k')) as [->|Hne]; intros H.
  - by simplify_eq.
  - by rewrite IH.
Qed.

Lemma dict_get_None k d : dict_get k d = None ↔ k ∉ dict_keys d.
Proof.
  unfold dict_keys. induction d as [|[k' v'] d IH]; simpl.
  - split; [intros _; apply not_elem_of_nil | done].
  - rewrite not_elem_of_cons. destruct (decide (k = k')) as [->|Hne].
    + split; [done | by intros [? _]].
    + rewrite IH. tauto.
Qed.

Lemma dict_get_is_Some k d : is_Some (dict_get k d) ↔ k ∈ dict_keys d.
Proof.
  rewrite <- not_eq_None_Some, dict_get_None.
  destruct (decide (k ∈ dict_keys d)); tauto.
Qed.

(** A new key goes to the end. *)
Lemma dict_set_fresh k v d : k ∉ dict_keys d → dict_set k v d = d ++ [(k, v)].
Proof.
  unfold dict_keys. induction d as [|[k' v'] d IH]; simpl; [done |].
  rewrite not_elem_of_cons. intros [Hne Hd].
  rewrite decide_False by done. by rewrite IH.
Qed.

Lemma dict_keys_set_present k v d :
  k ∈ dict_keys d → dict_keys (dict_set k v d) = dict_keys d.
Proof.
  unfold dict_keys. induction d as [|[k' v'] d IH]; simpl.
  - by intros ?%elem_of_nil.
  - destruct (decide (k = k')) as [->|Hne]; simpl; [done |].
    rewrite elem_of_cons. intros [?|Hin]; [done |]. f_equal. by apply IH.
Qed.

Lemma dict_keys_set_fresh k v d :
  k ∉ dict_keys d → dict_keys (dict_set k v d) = dict_keys d ++ [k].
Proof.
  intros H. rewrite dict_set_fresh by done. unfold dict_keys. by rewrite fmap_app.
Qed.

Lemma elem_of_dict_keys_set k k' v d :
  k' ∈ dict_keys (dict_set k v d) ↔ k' = k ∨ k' ∈ dict_keys d.
Proof.
  destruct (decide (k ∈ dict_keys d)) as [Hin|Hout].
  - rewrite dict_keys_set_present by done. split; [tauto | by intros [->|?]].
  - rewrite dict_keys_set_fresh by done. rewrite elem_of_app, list_elem_of_singleton. tauto.
Qed.

Lemma dict_set_wf k v d : dict_wf d → dict_wf (dict_set k v d).
Proof.
  unfold dict_wf. intros Hwf. destruct (decide (k ∈ dict_keys d)) as [Hin|Hout].
  - by rewrite dict_keys_set_present.
  - rewrite dict_keys_set_fresh by done. apply NoDup_app. split_and!; [done | | apply NoDup_singleton].
    intros x Hx ->%list_elem_of_singleton. done.
Qed.

Lemma dict_wf_get k v d : dict_wf d → (k, v) ∈ d → dict_get k d = Some v.
Proof.
  unfold dict_wf, dict_keys. induction d as [|[k' v'] d IH]; simpl.
  - by intros _ ?%elem_of_nil.
  - rewrite NoDup_cons, elem_of_cons. intros [Hout Hwf] [Heq|Hin].
    + simplify_eq. by rewrite decide_True.
    + rewrite decide_False; [by apply IH |].
      intros ->. apply Hout. apply list_elem_of_fmap. by exists (k', v).
Qed.

Lemma dict_get_elem_of k v d : dict_get k d = Some v → (k, v) ∈ d.
Proof.
  induction d as [|[k' v'] d IH]; simpl; [done |].
  destruct (decide (k = k')) as [->|Hne]; intros H.
  - simplify_eq. apply elem_of_cons. by left.
  - apply elem_of_cons. right. by apply IH.
Qed.

End dict_facts.

(** ** File names *)

Lemma string_app_cons (c : ascii) (a b : string) :
  String c a +:+ b = String c (a +:+ b).
Proof. reflexivity. Qed.

Lemma string_length_app (a b : string) :
  String.length (a +:+ b) = String.length a + String.length b.
Proof.
  induction a as [|c a IH]; [done |].
  rewrite string_app_cons. simpl. by rewrite IH.
Qed.

Lemma string_app_inv_tail (a b s : string) : a +:+ s = b +:+ s → a = b.
Proof.
  revert b. induction a as [|c a IH]; intros [|c' b]; simpl; intros H.
  - done.
  - apply (f_equal String.length) in H. rewrite !string_length_app in H. simpl in H. lia.
  - apply (f_equal String.length) in H. rewrite !string_length_app in H. simpl in H. lia.
  - injection H as -> H. f_equal. by apply IH.
Qed.

Lemma path_join_inj (dir a b : string) : path_join dir a = path_join dir b → a = b.
Proof.
  unfold path_join. intros H.
  apply (inj (String.app dir)) in H. by apply (inj (String.app "/")) in H.
Qed.

(** No model or scaler file is the manifest. *)
Lemma joblib_ne_metadata (k : string) : k +:+ ".joblib" ≠ "metadata.json".
Proof.
  intros H.
  do 13 (destruct k as [|? k]; simpl in H; [discriminate H | injection H as _ H]).
  destruct k; discriminate H.
Qed.

Lemma string_app_assoc (a b c : string) : (a +:+ b) +:+ c = a +:+ (b +:+ c).
Proof.
  induction a as [|x a IH]; [done |].
  rewrite !string_app_cons. by rewrite IH.
Qed.

(** A model file is a scaler file only for a model named [<scaler>_scaler]. *)
Lemma joblib_scaler_clash (k s : string) :
  k +:+ ".joblib" = s +:+ "_scaler.joblib" → k = s +:+ "_scaler".
Proof.
  intros H. apply (string_app_inv_tail _ _ ".joblib").
  by rewrite string_app_assoc.
Qed.

(** ** The order of binary64 values *)

Lemma float_ltb_irrefl (x : spec_float) : Float.ltb x x = false.
Proof.
  unfold Float.ltb, SFltb, SFcompare.
  destruct x as [[]|[]| |[] m e]; try reflexivity;
    rewrite Z.compare_refl;
    change (Pos.compare_cont Eq m m) with (Pos.compare m m);
    by rewrite Pos.compare_refl.
Qed.

Lemma float_ltb_trans (x y z : spec_float) :
  Float.ltb x y = true → Float.ltb y z = true → Float.ltb x z = true.
Proof.
  unfold Float.ltb, SFltb, SFcompare.
  destruct x as [[]|[]| |[] mx ex], y as [[]|[]| |[] my ey], z as [[]|[]| |[] mz ez];
    try reflexivity; try discriminate;
    change (Pos.compare_cont Eq) with Pos.compare;
    destruct (Z.compare_spec ex ey), (Z.compare_spec ey ez), (Z.compare_spec ex ez);
    try reflexivity; try discriminate; try lia; subst;
    destruct (Pos.compare_spec mx my), (Pos.compare_spec my mz), (Pos.compare_spec mx mz);
    simpl; try reflexivity; try discriminate; try lia.
Qed.

(** ** Rounding in binary64: [int(n_samples * 0.8)] *)

Lemma digits2_pos_size (p : positive) : digits2_pos p = Pos.size p.
Proof. induction p as [p IH|p IH|]; simpl; congruence. Qed.

Lemma digits_bounds (p : positive) :
  (2 ^ (Z.pos (digits2_pos p) - 1) ≤ Z.pos p < 2 ^ Z.pos (digits2_pos p))%Z.
Proof.
  rewrite digits2_pos_size. split.
  - pose proof (Pos.size_le p) as H.
    apply Pos2Z.pos_le_pos in H. rewrite Pos2Z.inj_pow in H.
    replace (Z.pos (Pos.size p)) with (Z.succ (Z.pos (Pos.size p) - 1)) in H by lia.
    rewrite Z.pow_succ_r in H by lia. lia.
  - pose proof (Pos.size_gt p) as H.
    apply Pos2Z.pos_lt_pos in H. by rewrite Pos2Z.inj_pow in H.
Qed.

Lemma digits_unique (p : positive) (L : Z) :
  (2 ^ (L - 1) ≤ Z.pos p < 2 ^ L)%Z → Z.pos (digits2_pos p) = L.
Proof.
  intros [Hlo Hhi]. destruct (digits_bounds p) as [Hlo' Hhi'].
  assert (0 < L)%Z as HL.
  { destruct (Z.le_gt_cases L 0) as [H|H]; [| done].
    assert (2 ^ L ≤ 2 ^ 0)%Z by (destruct (Z.lt_ge_cases L 0); [rewrite Z.pow_neg_r by done; done | by apply Z.pow_le_mono_r]).
    simpl in *. lia. }
  destruct (Z.lt_trichotomy (Z.pos (digits2_pos p)) L) as [H|[H|H]]; [| done |].
  - assert (2 ^ Z.pos (digits2_pos p) ≤ 2 ^ (L - 1))%Z by (apply Z.pow_le_mono_r; lia). lia.
  - assert (2 ^ L ≤ 2 ^ (Z.pos (digits2_pos p) - 1))%Z by (apply Z.pow_le_mono_r; lia). lia.
Qed.

(** One right shift keeps the quotient and records the bit shifted out. *)
Lemma shr_1_spec (mrs : shr_record) :
  (0 ≤ shr_m mrs)%Z →
  shr_m (shr_1 mrs) = (shr_m mrs / 2)%Z ∧ shr_r (shr_1 mrs) = Z.odd (shr_m mrs).
Proof.
  destruct mrs as [m r s]. simpl. intros Hm.
  destruct m as [|[p|p|]|p]; simpl; try lia; split; try reflexivity.
  - rewrite Pos2Z.inj_xI. apply (Z.div_unique _ _ _ 1); lia.
  - rewrite Pos2Z.inj_xO. apply (Z.div_unique _ _ _ 0); lia.
Qed.

Lemma shr_iter_spec (p : positive) (mrs : shr_record) :
  (0 ≤ shr_m mrs)%Z →
  shr_m (SpecFloat.iter_pos shr_1 p mrs) = (shr_m mrs / 2 ^ Z.pos p)%Z
  ∧ shr_r (SpecFloat.iter_pos shr_1 p mrs) = Z.odd (shr_m mrs / 2 ^ (Z.pos p - 1)).
Proof.
  assert (Hcomp : ∀ (a b : positive) (f g : shr_record → shr_record),
    (∀ mrs, (0 ≤ shr_m mrs)%Z →
       shr_m (f mrs) = (shr_m mrs / 2 ^ Z.pos a)%Z
       ∧ shr_r (f mrs) = Z.odd (shr_m mrs / 2 ^ (Z.pos a - 1))) →
    (∀ mrs, (0 ≤ shr_m mrs)%Z →
       shr_m (g mrs) = (shr_m mrs / 2 ^ Z.pos b)%Z
       ∧ shr_r (g mrs) = Z.odd (shr_m mrs / 2 ^ (Z.pos b - 1))) →
    ∀ mrs, (0 ≤ shr_m mrs)%Z →
       shr_m (g (f mrs)) = (shr_m mrs / 2 ^ Z.pos (a + b))%Z
       ∧ shr_r (g (f mrs)) = Z.odd (shr_m mrs / 2 ^ (Z.pos (a + b) - 1))).
  { clear mrs. intros a b f g Hf Hg mrs Hm. destruct (Hf mrs Hm) as [Hf1 _].
    assert (0 ≤ shr_m (f mrs))%Z as Hfm.
    { rewrite Hf1. apply Z.div_pos; [done | apply Z.pow_pos_nonneg; lia]. }
    destruct (Hg _ Hfm) as [Hg1 Hg2]. rewrite Hg1, Hg2, Hf1.
    assert (0 < 2 ^ Z.pos a)%Z by (apply Z.pow_pos_nonneg; lia).
    assert (0 < 2 ^ Z.pos b)%Z by (apply Z.pow_pos_nonneg; lia).
    assert (0 < 2 ^ (Z.pos b - 1))%Z by (apply Z.pow_pos_nonneg; lia).
    rewrite !Z.div_div by lia.
    rewrite <- !Z.pow_add_r by lia. rewrite Pos2Z.inj_add.
    replace (Z.pos a + Z.pos b - 1)%Z with (Z.pos a + (Z.pos b - 1))%Z by lia.
    done. }
  assert (H1 : ∀ mrs, (0 ≤ shr_m mrs)%Z →
    shr_m (shr_1 mrs) = (shr_m mrs / 2 ^ Z.pos 1)%Z
    ∧ shr_r (shr_1 mrs) = Z.odd (shr_m mrs / 2 ^ (Z.pos 1 - 1))).
  { clear mrs. intros mrs Hm. destruct (shr_1_spec mrs Hm) as [-> ->].
    split; [done |]. simpl. by rewrite Z.div_1_r. }
  revert mrs. induction p as [p IH|p IH|]; intros mrs Hm; simpl.
  - replace (p~1)%positive with (1 + (p + p))%positive by lia.
    apply (Hcomp 1%positive (p + p)%positive shr_1 (λ x, SpecFloat.iter_pos shr_1 p (SpecFloat.iter_pos shr_1 p x)));
      [exact H1 | | exact Hm].
    apply (Hcomp p p); exact IH.
  - replace (p~0)%positive with (p + p)%positive by lia.
    apply (Hcomp p p); [exact IH | exact IH | exact Hm].
  - by apply H1.
Qed.

(** Rounding to nearest adds at most one, and only past the half. *)
Lemma round_nearest_even_spec (mrs : shr_record) :
  let M := round_nearest_even (shr_m mrs) (loc_of_shr_record mrs) in
  (shr_m mrs ≤ M ≤ shr_m mrs + 1)%Z ∧ (M = (shr_m mrs + 1)%Z → shr_r mrs = true).
Proof.
  destruct mrs as [m [] []]; simpl; try (split; [lia | by intros; try done; lia]).
  destruct (Z.even m); split; try lia; try done.
Qed.

Lemma odd_quotient_half (P : Z) (s : Z) :
  (0 ≤ P)%Z → (1 ≤ s)%Z → Z.odd (P / 2 ^ (s - 1)) = true →
  (2 ^ (s - 1) ≤ P mod 2 ^ s)%Z.
Proof.
  intros HP Hs Hodd.
  replace (2 ^ s)%Z with (2 ^ (s - 1) * 2)%Z
    by (rewrite Z.mul_comm, <- Z.pow_succ_r by lia; f_equal; lia).
  assert (0 < 2 ^ (s - 1))%Z by (apply Z.pow_pos_nonneg; lia).
  rewrite Z.rem_mul_r by lia.
  rewrite Zmod_odd, Hodd.
  pose proof (Z.mod_pos_bound P (2 ^ (s - 1))). lia.
Qed.

(** The first step of rounding a positive mantissa of [53 + s] bits: a
    right shift by [s]. *)
Lemma shr_fexp_spec (m : positive) (e : Z) :
  let s := (Z.pos (digits2_pos m) - 53)%Z in
  let out := shr_fexp 53 1024 (Z.pos m) e loc_Exact in
  (0 ≤ s)%Z → (-1074 ≤ e + s)%Z →
  out.2 = (e + s)%Z
  ∧ shr_m out.1 = (Z.pos m / 2 ^ s)%Z
  ∧ ((1 ≤ s)%Z → shr_r out.1 = Z.odd (Z.pos m / 2 ^ (s - 1)))
  ∧ (s = 0%Z → loc_of_shr_record out.1 = loc_Exact).
Proof.
  intros s out Hs He. subst out. unfold shr_fexp. cbn [Zdigits2 shr_record_of_loc].
  assert (fexp 53 1024 (Z.pos (digits2_pos m) + e) - e = s)%Z as ->
    by (unfold fexp, emin; lia).
  destruct s as [|p|p] eqn:Es; [| | lia].
  - cbn [shr fst snd shr_m loc_of_shr_record]. rewrite Z.div_1_r.
    split_and!; [lia | done | lia | done].
  - cbn [shr fst snd].
    destruct (shr_iter_spec p {| shr_m := Z.pos m; shr_r := false; shr_s := false |})
      as [Hm Hr]; [simpl; lia |].
    cbn [shr_m] in Hm, Hr. split_and!; [done | done | done | lia].
Qed.

(** A mantissa of 53 bits is not rounded. *)
Lemma round_aux_exact (m : positive) (e : Z) :
  Z.pos (digits2_pos m) = 53%Z → (-1074 ≤ e ≤ 971)%Z →
  binary_round_aux 53 1024 false (Z.pos m) e loc_Exact = S754_finite false m e.
Proof.
  intros Hd He. unfold binary_round_aux.
  destruct (shr_fexp_spec m e) as (H2 & Hm & _ & Hl); [lia | lia |].
  rewrite Hd in H2, Hm, Hl. simpl in H2, Hm, Hl. rewrite Z.div_1_r in Hm.
  destruct (shr_fexp 53 1024 (Z.pos m) e loc_Exact) as [mrs e1]. cbn [fst snd] in *.
  assert (e1 = e) as -> by lia.
  rewrite Hm, Hl by done. cbn [round_nearest_even].
  destruct (shr_fexp_spec m e) as (H2' & Hm' & _ & _); [lia | lia |].
  rewrite Hd in H2', Hm'. simpl in H2', Hm'. rewrite Z.div_1_r in Hm'.
  destruct (shr_fexp 53 1024 (Z.pos m) e loc_Exact) as [mrs' e2]. cbn [fst snd] in *.
  assert (e2 = e) as -> by lia.
  rewrite Hm'. destruct (Z.leb_spec e (1024 - 53)); [done | lia].
Qed.

Lemma pos_iter_xO (n d : positive) : Z.pos (Pos.iter xO n d) = (Z.pos n * 2 ^ Z.pos d)%Z.
Proof.
  induction d as [|d IH] using Pos.peano_ind.
  - simpl. lia.
  - rewrite Pos.iter_succ, Pos2Z.inj_xO, IH, Pos2Z.inj_succ, Z.pow_succ_r by lia. lia.
Qed.

(** The binary64 value of an integer below [2^53]: the integer itself, on
    a mantissa of 53 bits. *)
Lemma of_Z_spec (N : Z) :
  (0 < N < 2 ^ 53)%Z →
  ∃ mx d, Float.of_Z N = S754_finite false mx (- d)
          ∧ Z.pos mx = (N * 2 ^ d)%Z ∧ (0 ≤ d ≤ 52)%Z
          ∧ Z.pos (digits2_pos mx) = 53%Z.
Proof.
  intros [Hpos Hlt]. destruct N as [|n|n]; try lia.
  unfold Float.of_Z, binary_normalize, binary_round, Float.prec, Float.emax.
  pose proof (digits_bounds n) as [Hlo Hhi].
  set (L := Z.pos (digits2_pos n)) in *.
  assert (1 ≤ L ≤ 53)%Z as HL.
  { split; [subst L; lia |].
    destruct (Z.le_gt_cases L 53) as [H|H]; [done |].
    assert (2 ^ 53 ≤ 2 ^ (L - 1))%Z by (apply Z.pow_le_mono_r; lia). lia. }
  assert (fexp 53 1024 (L + 0) = L - 53)%Z as -> by (unfold fexp, emin; lia).
  unfold shl_align.
  destruct (L - 53 - 0)%Z as [|p|p] eqn:Ed; [| lia |].
  - exists n, 0%Z.
    assert (L = 53)%Z as HL53 by lia.
    rewrite round_aux_exact by (fold L; lia).
    split_and!; [done | lia | lia | lia | by fold L].
  - exists (Pos.iter xO n p), (Z.pos p).
    assert (Z.pos (digits2_pos (Pos.iter xO n p)) = 53%Z) as Hd.
    { apply digits_unique. rewrite pos_iter_xO.
      replace 53%Z with (L + Z.pos p)%Z by lia.
      replace (L + Z.pos p - 1)%Z with ((L - 1) + Z.pos p)%Z by lia.
      rewrite !Z.pow_add_r by lia.
      assert (0 < 2 ^ Z.pos p)%Z by (apply Z.pow_pos_nonneg; lia). nia. }
    rewrite round_aux_exact by (try done; lia).
    split_and!; [f_equal; lia | apply pos_iter_xO | lia | lia | done].
Qed.

(** The integer part of a product of two positive binary64 values whose
    exact product has [53 + s] bits: the rounded mantissa [M'] is the
    quotient of the product by [2^s], or one more when the remainder
    reaches the half. *)
Lemma mul_to_int (mx my : positive) (ex ey : Z) :
  let P := Z.pos (mx * my) in
  let s := (Z.pos (digits2_pos (mx * my)) - 53)%Z in
  let e' := (ex + ey + s)%Z in
  (1 ≤ s)%Z → (-1074 ≤ e' ≤ -2)%Z →
  ∃ M', Float.to_int (Float.mul (S754_finite false mx ex) (S754_finite false my ey))
        = Ok (M' / 2 ^ (- e'))%Z
        ∧ (P / 2 ^ s ≤ M' ≤ P / 2 ^ s + 1)%Z
        ∧ (M' = (P / 2 ^ s + 1)%Z → (2 ^ (s - 1) ≤ P mod 2 ^ s)%Z).
Proof.
  intros P s e' Hs He.
  unfold Float.mul, SFmul, Float.prec, Float.emax. cbn [xorb]. unfold binary_round_aux.
  destruct (shr_fexp_spec (mx * my) (ex + ey)) as (H2 & Hm & Hr & _);
    [fold s; lia | fold s; lia |].
  fold s in H2, Hm, Hr. specialize (Hr Hs).
  destruct (shr_fexp 53 1024 (Z.pos (mx * my)) (ex + ey) loc_Exact) as [mrs e1].
  fold P in Hm, Hr.
  cbn [fst snd] in *. assert (e1 = e') as -> by (subst e'; lia). clear H2.
  destruct (round_nearest_even_spec mrs) as [HM Hup]. cbn zeta in HM, Hup.
  set (M' := round_nearest_even (shr_m mrs) (loc_of_shr_record mrs)) in *.
  rewrite Hm in HM, Hup.
  (* the quotient has 53 bits *)
  assert (0 < 2 ^ s)%Z as Hps by (apply Z.pow_pos_nonneg; lia).
  pose proof (digits_bounds (mx * my)) as [Hlo Hhi].
  replace (Z.pos (digits2_pos (mx * my))) with (s + 53)%Z in Hlo, Hhi by (subst s; lia).
  replace (s + 53 - 1)%Z with (s + 52)%Z in Hlo by lia.
  rewrite Z.pow_add_r in Hlo, Hhi by lia. fold P in Hlo, Hhi.
  assert (2 ^ 52 ≤ P / 2 ^ s)%Z as HFlo by (apply Z.div_le_lower_bound; lia).
  assert (P / 2 ^ s < 2 ^ 53)%Z as HFhi by (apply Z.div_lt_upper_bound; lia).
  exists M'. split; [| split; [done |]].
  2:{ intros HMup. apply odd_quotient_half; [subst P; lia | done |].
      rewrite <- Hr. by apply Hup. }
  destruct M' as [|q|q] eqn:EM; [lia | | lia].
  (* the second shift: by one bit when rounding reached 2^53 *)
  assert (Z.pos (digits2_pos q) = 53 ∨ Z.pos (digits2_pos q) = 54)%Z as Hdq.
  { destruct (Z.lt_ge_cases (Z.pos q) (2 ^ 53)) as [H|H].
    - left. apply digits_unique. lia.
    - right. apply digits_unique. lia. }
  destruct (shr_fexp_spec q e') as (H2 & Hm2 & _ & _); [lia | lia |].
  destruct (shr_fexp 53 1024 (Z.pos q) e' loc_Exact) as [mrs2 e2].
  cbn [fst snd] in *. rewrite Hm2.
  set (s2 := (Z.pos (digits2_pos q) - 53)%Z) in *.
  assert (0 < 2 ^ s2)%Z as Hps2 by (apply Z.pow_pos_nonneg; lia).
  assert (0 < Z.pos q / 2 ^ s2)%Z as Hq2.
  { apply Z.div_str_pos. destruct Hdq; subst s2; [replace (Z.pos (digits2_pos q) - 53)%Z with 0%Z by lia | replace (Z.pos (digits2_pos q) - 53)%Z with 1%Z by lia]; simpl; lia. }
  destruct (Z.pos q / 2 ^ s2)%Z as [|m|m] eqn:Em; [lia | | lia].
  destruct (Z.leb_spec e2 (1024 - 53)); [| lia].
  unfold Float.to_int. cbn [cond_Zopp].
  destruct e2 as [|p|p] eqn:Ee2; [lia | lia |].
  f_equal. rewrite <- Em.
  assert (0 < 2 ^ Z.pos p)%Z by (apply Z.pow_pos_nonneg; lia).
  rewrite Z.div_div by lia. rewrite <- Z.pow_add_r by lia.
  do 2 f_equal. lia.
Qed.

(** [5 * 0.8 = 4 + 2^-53], on the mantissa of the literal. *)
Lemma f0_8_mantissa : (5 * 7205759403792794 = 2 ^ 55 + 2)%Z.
Proof. reflexivity. Qed.

(** [int(N * 0.8)] is [floor(4N/5)] for every count below [3 * 2^49]. *)
Lemma int_mul_0_8 (N : Z) :
  (0 ≤ N < 3 * 2 ^ 49)%Z →
  ∃ x, Float.int_mul N f0_8 = Ok x ∧ Float.to_int x = Ok (4 * N / 5)%Z.
Proof.
  intros [H0 Hlt]. destruct (Z.eq_dec N 0%Z) as [->|Hne].
  { eexists. split; reflexivity. }
  destruct (of_Z_spec N) as (mx & d & HofZ & Hmx & Hd & Hdig); [lia |].
  unfold Float.int_mul, Float.of_int. rewrite HofZ.
  eexists. split; [reflexivity |]. unfold f0_8.
  set (my := 7205759403792794%positive).
  pose proof (digits_bounds mx) as [Hxlo Hxhi]. rewrite Hdig in Hxlo, Hxhi.
  simpl in Hxlo, Hxhi.
  (* the product has 105 or 106 bits *)
  assert (2 ^ 104 ≤ Z.pos (mx * my) < 2 ^ 106)%Z as HP.
  { rewrite Pos2Z.inj_mul. subst my. lia. }
  assert (Z.pos (digits2_pos (mx * my)) = 105 ∨ Z.pos (digits2_pos (mx * my)) = 106)%Z as HD.
  { destruct (Z.lt_ge_cases (Z.pos (mx * my)) (2 ^ 105)) as [H|H].
    - left. apply digits_unique. lia.
    - right. apply digits_unique. lia. }
  (* N < 2^51 leaves at least two bits of shift *)
  assert (2 ≤ d)%Z as Hd2.
  { destruct (Z.lt_ge_cases d 2) as [H|H]; [| done].
    assert (2 ^ d ≤ 2 ^ 1)%Z by (apply Z.pow_le_mono_r; lia). simpl in *. nia. }
  assert (4 ≤ 2 ^ d)%Z as HA.
  { change 4%Z with (2 ^ 2)%Z. apply Z.pow_le_mono_r; lia. }
  destruct (mul_to_int mx my (- d) (-53)) as (M' & -> & HM & Hup); [lia | lia |].
  f_equal.
  set (A := (2 ^ d)%Z) in *.
  set (P := Z.pos (mx * my)) in *.
  assert (5 * P = 4 * (N * A) * 2 ^ 53 + 2 * (N * A))%Z as HP5.
  { subst P. rewrite Pos2Z.inj_mul, Hmx. subst my. lia. }
  assert (N * A ≤ (3 * 2 ^ 49 - 1) * A)%Z as HNA by nia.
  set (k := (4 * N / 5)%Z).
  pose proof (Z.div_mod (4 * N) 5 ltac:(lia)) as Hk.
  pose proof (Z.mod_pos_bound (4 * N) 5 ltac:(lia)) as Hr. fold k in Hk.
  set (r := ((4 * N) mod 5)%Z) in *.
  assert (0 ≤ r * A ≤ 4 * A)%Z as HrA by nia.
  assert (4 * (N * A) = 5 * (k * A) + r * A)%Z as H4 by nia.
  symmetry. apply Z.div_unique_pos with (r := (M' - k * 2 ^ (- (- d + -53 + (Z.pos (digits2_pos (mx * my)) - 53))))%Z).
  2: lia.
  destruct HD as [HD|HD]; rewrite HD in *.
  - (* s = 52: the result is in units of 1/(2A) *)
    replace (- (- d + -53 + (105 - 53)))%Z with (d + 1)%Z by lia.
    rewrite Z.pow_add_r by lia. fold A. change (2 ^ 1)%Z with 2%Z.
    change (105 - 53)%Z with 52%Z in *. change (52 - 1)%Z with 51%Z in *.
    pose proof (Z.div_mod P (2 ^ 52) ltac:(lia)) as HPd.
    pose proof (Z.mod_pos_bound P (2 ^ 52) ltac:(lia)) as HPr.
    set (F := (P / 2 ^ 52)%Z) in *. set (R := (P mod 2 ^ 52)%Z) in *.
    set (u := (k * A)%Z) in *. set (v := (r * A)%Z) in *. set (m := (N * A)%Z) in *.
    assert (M' = F ∨ M' = F + 1)%Z as [->| ->] by lia.
    + lia.
    + specialize (Hup eq_refl). lia.
  - (* s = 53: the result is in units of 1/A *)
    replace (- (- d + -53 + (106 - 53)))%Z with d by lia. fold A.
    change (106 - 53)%Z with 53%Z in *. change (53 - 1)%Z with 52%Z in *.
    pose proof (Z.div_mod P (2 ^ 53) ltac:(lia)) as HPd.
    pose proof (Z.mod_pos_bound P (2 ^ 53) ltac:(lia)) as HPr.
    set (F := (P / 2 ^ 53)%Z) in *. set (R := (P mod 2 ^ 53)%Z) in *.
    set (u := (k * A)%Z) in *. set (v := (r * A)%Z) in *. set (m := (N * A)%Z) in *.
    assert (M' = F ∨ M' = F + 1)%Z as [->| ->] by lia.
    + lia.
    + specialize (Hup eq_refl). lia.
Qed.

(** The default sample count, and the rounding that the bound keeps out:
    at [3 * 2^49] the product is rounded up across an integer. *)
Example int_mul_0_8_default :
  match Float.int_mul 10000 f0_8 with Ok x => Float.to_int x | Raise e => Raise e end
  = Ok 8000%Z.
Proof. vm_compute. reflexivity. Qed.

Example int_mul_0_8_at_bound :
  match Float.int_mul (3 * 2 ^ 49) f0_8 with Ok x => Float.to_int x | Raise e => Raise e end
  = Ok (4 * (3 * 2 ^ 49) / 5 + 1)%Z.
Proof. vm_compute. reflexivity. Qed.

(** ** Running computations *)

Section monad_facts.
Context {S : Type}.

(** A computation that returns normally ran both halves of a [bind]. *)
Lemma bind_ok_inv {A B} (m : M S A) (k : A → M S B) s b s' :
  bind m k s = (Ok b, s') → ∃ a s1, m s = (Ok a, s1) ∧ k a s1 = (Ok b, s').
Proof.
  unfold bind. destruct (m s) as [[a|e] s1]; intros H; [eauto | discriminate].
Qed.

(** [m] keeps the invariant [I], whether it returns or raises. *)
Definition preserves {A} (I : S → Prop) (m : M S A) : Prop :=
  ∀ s, I s → I (m s).2.

Lemma preserves_ret {A} I (a : A) : preserves I (ret a).
Proof. by intros s. Qed.

Lemma preserves_raise {A} I e : preserves I (raise (A:=A) e).
Proof. by intros s. Qed.

Lemma preserves_lift {A} I (r : result A) : preserves I (lift r).
Proof. by intros s. Qed.

Lemma preserves_gets {A} I (f : S → A) : preserves I (gets f).
Proof. by intros s. Qed.

Lemma preserves_bind {A B} I (m : M S A) (k : A → M S B) :
  preserves I m → (∀ a, preserves I (k a)) → preserves I (bind m k).
Proof.
  intros Hm Hk s Hs. unfold bind. specialize (Hm s Hs).
  destruct (m s) as [[a|e] s1]; simpl in *; [by apply Hk | done].
Qed.

Lemma preserves_for_fold {A B} I (l : list A) (acc : B) (body : B → A → M S B) :
  (∀ acc x, preserves I (body acc x)) → preserves I (for_fold l acc body).
Proof.
  intros Hbody. revert acc. induction l as [|x l IH]; intros acc; simpl.
  - apply preserves_ret.
  - apply preserves_bind; [apply Hbody | intros acc'; apply IH].
Qed.

Lemma preserves_for_each {A} I (l : list A) (body : A → M S unit) :
  (∀ x, preserves I (body x)) → preserves I (for_each l body).
Proof.
  intros Hbody. induction l as [|x l IH]; simpl.
  - apply preserves_ret.
  - apply preserves_bind; [apply Hbody | intros _; apply IH].
Qed.

End monad_facts.

(** Unfold the field updates of a [world]. *)
Ltac wsimpl :=
  unfold ret, modify, gets, set_log, set_models, set_scalers, set_disk, set_np_random;
  simpl.

(** ** The generators leave the driver's mappings and the disk alone *)

Section Frames.
Context `{NP : NumPy} `{LIB : Library}.

(** A property of the mappings and the files only. *)
Definition on_store (P : dict pyobj → dict pyobj → gmap string file → string → Prop)
  : world → Prop :=
  λ w, P (models w) (scalers w) (disk w) (models_dir w).

Lemma preserves_logger_info P msg : preserves (on_store P) (logger_info msg).
Proof. by intros w. Qed.

Lemma preserves_logger_warning P msg : preserves (on_store P) (logger_warning msg).
Proof. by intros w. Qed.

Lemma preserves_seed P s : preserves (on_store P) (np_random_seed s).
Proof. by intros w. Qed.

Lemma preserves_draw {A} P (f : nat → rng → list A * rng) wrap n :
  preserves (on_store P) (draw f wrap n).
Proof.
  intros w Hw. unfold draw. destruct (n <? 0)%Z; [done |].
  by destruct (f (Z.to_nat n) (np_random w)).
Qed.

Lemma preserves_random P : preserves (on_store P) np_random_random.
Proof. intros w Hw. unfold np_random_random. by destruct (rng_random (np_random w)). Qed.

Lemma preserves_randint1 P lo hi : preserves (on_store P) (np_random_randint1 lo hi).
Proof.
  intros w Hw. unfold np_random_randint1. by destruct (rng_randint1 lo hi (np_random w)).
Qed.

Lemma preserves_full P x n : preserves (on_store P) (np_full x n).
Proof. unfold np_full. destruct (n <? 0)%Z; [apply preserves_raise | apply preserves_ret]. Qed.

(** Walk down a chain of [bind]s whose steps all keep the invariant. *)
Ltac preserves_step :=
  lazymatch goal with
  | |- preserves _ (bind _ _) => apply preserves_bind
  | |- preserves _ (ret _) => apply preserves_ret
  | |- preserves _ (raise _) => apply preserves_raise
  | |- preserves _ (lift _) => apply preserves_lift
  | |- preserves _ (gets _) => apply preserves_gets
  | |- preserves _ (logger_info _) => apply preserves_logger_info
  | |- preserves _ (logger_warning _) => apply preserves_logger_warning
  | |- preserves _ (np_random_seed _) => apply preserves_seed
  | |- preserves _ (draw _ _ _) => apply preserves_draw
  | |- preserves _ np_random_random => apply preserves_random
  | |- preserves _ (np_random_randint1 _ _) => apply preserves_randint1
  | |- preserves _ (np_full _ _) => apply preserves_full
  | |- preserves _ (for_fold _ _ _) => apply preserves_for_fold
  | |- preserves _ (for_each _ _) => apply preserves_for_each
  | |- preserves _ (let '(_, _) := ?p in _) => destruct p
  | |- preserves _ ((let '(_, _) := ?p in _) _) => destruct p
  | |- preserves _ (if ?b then _ else _) => destruct b
  | |- ∀ _, _ => intros ?
  | |- preserves _ _ => progress cbv zeta
  end.
Ltac preserves_walk := repeat preserves_step.

Lemma preserves_combine P a b : preserves (on_store P) (combine a b).
Proof. unfold combine. preserves_walk. Qed.

Lemma preserves_fraud_data P n : preserves (on_store P) (_generate_fraud_data n).
Proof.
  unfold _generate_fraud_data, np_random_normal, np_random_randint, np_random_uniform,
    np_zeros, np_ones.
  preserves_walk. apply preserves_combine.
Qed.

Lemma preserves_spending_data P n : preserves (on_store P) (_generate_spending_data n).
Proof. unfold _generate_spending_data, np_random_normal. preserves_walk. Qed.

Lemma preserves_sentiment_data P n : preserves (on_store P) (_generate_sentiment_data n).
Proof. unfold _generate_sentiment_data, np_random_choice. preserves_walk. Qed.

Lemma preserves_synthetic_data P n : preserves (on_store P) (generate_synthetic_data n).
Proof.
  unfold generate_synthetic_data.
  repeat first [ apply preserves_logger_info
               | apply preserves_fraud_data | apply preserves_spending_data
               | apply preserves_sentiment_data | apply preserves_ret
               | apply preserves_bind | intros ? ].
Qed.

End Frames.

(** ** The generators depend on their seed only *)

Section Reseeding.
Context `{NP : NumPy} `{LIB : Library}.

(** The result of [m] and the random state it leaves are functions of the
    random state it starts from: nothing else of the world is read. *)
Definition rng_only {A} (m : M world A) : Prop :=
  ∀ w1 w2, np_random w1 = np_random w2 →
    (m w1).1 = (m w2).1 ∧ np_random (m w1).2 = np_random (m w2).2.

Lemma rng_only_ret {A} (a : A) : rng_only (ret a).
Proof. by intros w1 w2 H. Qed.

Lemma rng_only_raise {A} e : rng_only (raise (A:=A) e).
Proof. by intros w1 w2 H. Qed.

Lemma rng_only_lift {A} (r : result A) : rng_only (lift r).
Proof. by intros w1 w2 H. Qed.

Lemma rng_only_bind {A B} (m : M world A) (k : A → M world B) :
  rng_only m → (∀ a, rng_only (k a)) → rng_only (bind m k).
Proof.
  intros Hm Hk w1 w2 H. unfold bind. destruct (Hm w1 w2 H) as [Hr Hg].
  destruct (m w1) as [[a1|e1] s1], (m w2) as [[a2|e2] s2]; simpl in *; simplify_eq.
  - by apply Hk.
  - done.
Qed.

Lemma rng_only_for_fold {A B} (l : list A) (acc : B) (body : B → A → M world B) :
  (∀ acc x, rng_only (body acc x)) → rng_only (for_fold l acc body).
Proof.
  intros Hbody. revert acc. induction l as [|x l IH]; intros acc; simpl.
  - apply rng_only_ret.
  - apply rng_only_bind; [apply Hbody | intros acc'; apply IH].
Qed.

Lemma rng_only_draw {A} (f : nat → rng → list A * rng) wrap n : rng_only (draw f wrap n).
Proof.
  intros w1 w2 H. unfold draw. destruct (n <? 0)%Z; [done |].
  rewrite H. by destruct (f (Z.to_nat n) (np_random w2)).
Qed.

Lemma rng_only_random : rng_only np_random_random.
Proof.
  intros w1 w2 H. unfold np_random_random. rewrite H.
  by destruct (rng_random (np_random w2)).
Qed.

Lemma rng_only_randint1 lo hi : rng_only (np_random_randint1 lo hi).
Proof.
  intros w1 w2 H. unfold np_random_randint1. rewrite H.
  by destruct (rng_randint1 lo hi (np_random w2)).
Qed.

Lemma rng_only_full x n : rng_only (np_full x n).
Proof. unfold np_full. destruct (n <? 0)%Z; [apply rng_only_raise | apply rng_only_ret]. Qed.

(** After [np.random.seed(s)] the starting state is forgotten. *)
Lemma reseeded {A} s (k : M world A) :
  rng_only k →
  ∀ w1 w2, (bind (np_random_seed s) (λ _, k) w1).1
           = (bind (np_random_seed s) (λ _, k) w2).1.
Proof. intros Hk w1 w2. unfold bind, np_random_seed, modify. by apply Hk. Qed.

Ltac rng_step :=
  lazymatch goal with
  | |- rng_only (bind _ _) => apply rng_only_bind
  | |- rng_only (ret _) => apply rng_only_ret
  | |- rng_only (raise _) => apply rng_only_raise
  | |- rng_only (lift _) => apply rng_only_lift
  | |- rng_only (draw _ _ _) => apply rng_only_draw
  | |- rng_only np_random_random => apply rng_only_random
  | |- rng_only (np_random_randint1 _ _) => apply rng_only_randint1
  | |- rng_only (np_full _ _) => apply rng_only_full
  | |- rng_only (for_fold _ _ _) => apply rng_only_for_fold
  | |- rng_only (let '(_, _) := ?p in _) => destruct p
  | |- rng_only ((let '(_, _) := ?p in _) _) => destruct p
  | |- rng_only (if ?b then _ else _) => destruct b
  | |- ∀ _, _ => intros ?
  | |- rng_only _ => progress cbv zeta
  end.

Lemma rng_only_combine a b : rng_only (combine a b).
Proof. unfold combine. repeat rng_step. Qed.

Lemma fraud_data_reseeds n w1 w2 :
  (_generate_fraud_data n w1).1 = (_generate_fraud_data n w2).1.
Proof.
  unfold _generate_fraud_data. apply reseeded.
  unfold np_random_normal, np_random_randint, np_random_uniform, np_zeros, np_ones.
  repeat rng_step. apply rng_only_combine.
Qed.

Lemma spending_data_reseeds n w1 w2 :
  (_generate_spending_data n w1).1 = (_generate_spending_data n w2).1.
Proof.
  unfold _generate_spending_data. apply reseeded.
  unfold np_random_normal. repeat rng_step.
Qed.

Lemma sentiment_data_reseeds n w1 w2 :
  (_generate_sentiment_data n w1).1 = (_generate_sentiment_data n w2).1.
Proof.
  unfold _generate_sentiment_data. apply reseeded.
  unfold np_random_choice. repeat rng_step.
Qed.

(** What ran before does not matter. *)
Lemma after_other {A B} (other : M world B) (gen : M world A) w :
  (∀ w1 w2, (gen w1).1 = (gen w2).1) →
  is_ok (other w).1 = true →
  (bind other (λ _, gen) w).1 = (gen w).1.
Proof.
  intros Hgen Hok. unfold bind. destruct (other w) as [[b|e] w']; [apply Hgen | done].
Qed.

(** C8: each sub-generator seeds numpy's generator on entry, so the table
    it returns for a sample count is the same from every state of the
    world, and so the same after any computation that ran before it. *)
Theorem generators_reseed n :
  (∀ w1 w2, (_generate_fraud_data n w1).1 = (_generate_fraud_data n w2).1)
  ∧ (∀ w1 w2, (_generate_spending_data n w1).1 = (_generate_spending_data n w2).1)
  ∧ (∀ w1 w2, (_generate_sentiment_data n w1).1 = (_generate_sentiment_data n w2).1)
  ∧ (∀ B (other : M world B) w, is_ok (other w).1 = true →
       (bind other (λ _, _generate_fraud_data n) w).1 = (_generate_fraud_data n w).1
       ∧ (bind other (λ _, _generate_spending_data n) w).1
         = (_generate_spending_data n w).1
       ∧ (bind other (λ _, _generate_sentiment_data n) w).1
         = (_generate_sentiment_data n w).1).
Proof.
  split_and!.
  - apply fraud_data_reseeds.
  - apply spending_data_reseeds.
  - apply sentiment_data_reseeds.
  - intros B other w Hok. split_and!; apply after_other; try done.
    + apply fraud_data_reseeds.
    + apply spending_data_reseeds.
    + apply sentiment_data_reseeds.
Qed.

End Reseeding.

(** ** The fraud table *)

Section FraudTable.
Context `{NP : NumPy} `{LIB : Library}.

(** [m] returns, from every state, a value that satisfies [Q]. *)
Definition returns {A} (m : M world A) (Q : A → Prop) : Prop :=
  ∀ w, ∃ a w', m w = (Ok a, w') ∧ Q a.

Lemma returns_ret {A} (a : A) (Q : A → Prop) : Q a → returns (ret a) Q.
Proof. intros HQ w. by exists a, w. Qed.

Lemma returns_lift {A} (r : result A) a (Q : A → Prop) :
  r = Ok a → Q a → returns (lift r) Q.
Proof. intros -> HQ w. by exists a, w. Qed.

Lemma returns_bind {A B} (m : M world A) (k : A → M world B) (Q : A → Prop) R :
  returns m Q → (∀ a, Q a → returns (k a) R) → returns (bind m k) R.
Proof.
  intros Hm Hk w. destruct (Hm w) as (a & w1 & E & HQ).
  destruct (Hk a HQ w1) as (b & w2 & E2 & HR).
  exists b, w2. split; [| done]. unfold bind. by rewrite E.
Qed.

Lemma returns_seed s : returns (np_random_seed s) (λ _, True).
Proof. intros w. by eexists _, _. Qed.

Lemma returns_draw {A} (f : nat → rng → list A * rng) wrap n :
  (0 ≤ n)%Z → (∀ k g, length (f k g).1 = k) →
  returns (draw f wrap n) (λ v, length v = Z.to_nat n).
Proof.
  intros Hn Hf w. unfold draw.
  destruct (Z.ltb_spec n 0); [lia |].
  specialize (Hf (Z.to_nat n) (np_random w)).
  destruct (f (Z.to_nat n) (np_random w)) as [v g]. simpl in Hf.
  eexists _, _. split; [reflexivity |]. by rewrite length_fmap.
Qed.

Lemma returns_full x n :
  (0 ≤ n)%Z → returns (np_full x n) (λ v, v = replicate (Z.to_nat n) (SFloat x)).
Proof.
  intros Hn w. unfold np_full. destruct (Z.ltb_spec n 0); [lia |].
  by eexists _, _.
Qed.

Lemma combine_eleven (a1 a2 a3 a4 a5 a6 a7 a8 a9 a10 a11
                      b1 b2 b3 b4 b5 b6 b7 b8 b9 b10 b11 : list scalar) :
  returns
    (combine
       [("amount", a1); ("hour", a2); ("day_of_week", a3);
        ("location_similarity", a4); ("merchant_category", a5);
        ("user_behavior_score", a6); ("device_fingerprint", a7);
        ("transaction_frequency", a8); ("amount_pattern", a9);
        ("time_pattern", a10); ("is_fraud", a11)]
       [("amount", b1); ("hour", b2); ("day_of_week", b3);
        ("location_similarity", b4); ("merchant_category", b5);
        ("user_behavior_score", b6); ("device_fingerprint", b7);
        ("transaction_frequency", b8); ("amount_pattern", b9);
        ("time_pattern", b10); ("is_fraud", b11)])
    (λ c, c = [("amount", a1 ++ b1); ("hour", a2 ++ b2); ("day_of_week", a3 ++ b3);
               ("location_similarity", a4 ++ b4); ("merchant_category", a5 ++ b5);
               ("user_behavior_score", a6 ++ b6); ("device_fingerprint", a7 ++ b7);
               ("transaction_frequency", a8 ++ b8); ("amount_pattern", a9 ++ b9);
               ("time_pattern", a10 ++ b10); ("is_fraud", a11 ++ b11)]).
Proof. intros w. eexists _, _. split; [vm_compute; reflexivity | reflexivity]. Qed.

Lemma pd_DataFrame_ok (d : dict (list scalar)) n :
  Forall (λ kc, length kc.2 = n) d → pd_DataFrame d = Ok d.
Proof.
  intros Hd. destruct d as [|[k c] rest]; [done |]. simpl.
  apply Forall_cons in Hd as [Hc Hrest]. simpl in Hc.
  rewrite (proj2 (forallb_forall _ _)); [done |].
  intros kc Hin. apply Nat.eqb_eq. rewrite Hc.
  rewrite Forall_forall in Hrest. apply Hrest. by apply list_elem_of_In.
Qed.

Lemma filter_replicate_other (a : nat) (x y : scalar) :
  x ≠ y → filter (λ s, s = y) (replicate a x) = [].
Proof.
  intros Hne. induction a as [|a IH]; simpl; [done |].
  rewrite filter_cons_False by done. exact IH.
Qed.

Lemma filter_replicate_same (a : nat) (y : scalar) :
  filter (λ s, s = y) (replicate a y) = replicate a y.
Proof.
  induction a as [|a IH]; simpl; [done |].
  rewrite filter_cons_True by done. by rewrite IH.
Qed.

Lemma zero_one_labels (a b : nat) :
  length (filter (λ s, s = SFloat Float.one)
            (replicate a (SFloat Float.zero) ++ replicate b (SFloat Float.one))) = b.
Proof.
  rewrite filter_app, filter_replicate_other, filter_replicate_same by discriminate.
  simpl. apply length_replicate.
Qed.

(** When [int(n_samples * 0.8)] is [k], within [0 .. n_samples], the
    generator returns a table of [n_samples] rows, of which the last
    [n_samples - k] carry the fraud label. *)
Lemma fraud_data_run (N k : Z) (x : spec_float) :
  Float.int_mul N f0_8 = Ok x → Float.to_int x = Ok k → (0 ≤ k ≤ N)%Z →
  returns (_generate_fraud_data N)
    (λ df, Z.of_nat (df_len df) = N ∧ Z.of_nat (fraud_rows df) = (N - k)%Z).
Proof.
  intros Hmul Hint Hk. unfold _generate_fraud_data.
  eapply returns_bind; [apply returns_seed | intros _ _].
  eapply returns_bind; [by apply (returns_lift _ x (λ a, a = x)) | intros ? ->].
  eapply returns_bind; [by apply (returns_lift _ k (λ a, a = k)) | intros ? ->].
  unfold np_random_normal, np_random_randint, np_random_uniform, np_zeros, np_ones.
  do 10 (eapply returns_bind;
         [ apply returns_draw;
           [ lia | intros; first [ apply rng_normal_length | apply rng_randint_length
                                 | apply rng_uniform_length ] ]
         | intros ? ? ]).
  eapply returns_bind; [apply returns_full; lia | intros ? ->].
  cbv zeta.
  do 10 (eapply returns_bind;
         [ apply returns_draw;
           [ lia | intros; first [ apply rng_normal_length | apply rng_randint_length
                                 | apply rng_uniform_length ] ]
         | intros ? ? ]).
  eapply returns_bind; [apply returns_full; lia | intros ? ->].
  eapply returns_bind; [apply combine_eleven | intros ? ->].
  cbv beta in *. eapply returns_lift.
  - apply (pd_DataFrame_ok _ (Z.to_nat k + Z.to_nat (N - k))).
    repeat (apply Forall_cons; split;
            [cbn [snd]; rewrite length_app, ?length_replicate; congruence |]).
    apply Forall_nil_2.
  - split.
    + cbn [df_len]. rewrite length_app. lia.
    + unfold fraud_rows.
      replace (dict_get "is_fraud" _) with
        (Some (replicate (Z.to_nat k) (SFloat Float.zero)
               ++ replicate (Z.to_nat (N - k)) (SFloat Float.one)))
        by (symmetry; reflexivity).
      rewrite zero_one_labels. lia.
Qed.


End FraudTable.



(** ** What a training method stores *)

Section Training.
Context `{NP : NumPy} `{LIB : Library}.

Implicit Types (w : world).

Definition untouched w w' : Prop :=
  models w' = models w ∧ scalers w' = scalers w ∧ disk w' = disk w
  ∧ models_dir w' = models_dir w.

(** [w'] is [w] with a model and a scaler stored under [k]. *)
Definition stored (k : string) w w' : Prop :=
  ∃ m s, models w' = dict_set k m (models w) ∧ scalers w' = dict_set k s (scalers w)
         ∧ disk w' = disk w ∧ models_dir w' = models_dir w.

(** [w'] is [w] with a model stored under [k]. *)
Definition stored_model (k : string) w w' : Prop :=
  ∃ m, models w' = dict_set k m (models w) ∧ scalers w' = scalers w
       ∧ disk w' = disk w ∧ models_dir w' = models_dir w.

(** Run a method on a symbolic state, branching on every library call. *)
Ltac run_method :=
  repeat (unfold fraud_step, bind, lift, logger_info, modify, ret;
          cbn [fst snd for_fold dict_items fraud_candidates];
          match goal with
          | |- context [if ?b then _ else _] => destruct b
          | |- context [match ?r with Ok _ => _ | Raise _ => _ end] => destruct r eqn:?
          | |- context [let '(_, _) := ?p in _] => is_var p; destruct p
          end).

Lemma train_fraud_outcome data w :
  let out := train_fraud_detection_model data w in
  (untouched w out.2 ∧ is_ok out.1 = false) ∨ stored "fraud_detection" w out.2.
Proof.
  unfold train_fraud_detection_model. run_method.
  all: first [ left; by repeat split | right; eexists _, _; by repeat split ].
Qed.

Lemma train_spending_outcome data w :
  let out := train_spending_prediction_model data w in
  (untouched w out.2 ∧ is_ok out.1 = false) ∨ stored "spending_prediction" w out.2.
Proof.
  unfold train_spending_prediction_model. run_method.
  all: first [ left; by repeat split | right; eexists _, _; by repeat split ].
Qed.

Lemma train_sentiment_outcome data w :
  let out := train_sentiment_analysis_model data w in
  (untouched w out.2 ∧ is_ok out.1 = false) ∨ stored "sentiment_analysis" w out.2.
Proof.
  unfold train_sentiment_analysis_model. run_method.
  all: first [ left; by repeat split | right; eexists _, _; by repeat split ].
Qed.

Lemma train_anomaly_outcome data w :
  let out := train_anomaly_detection_model data w in
  (untouched w out.2 ∧ is_ok out.1 = false) ∨ stored_model "anomaly_detection" w out.2.
Proof.
  unfold train_anomaly_detection_model. run_method.
  all: first [ left; by repeat split | right; eexists _; by repeat split ].
Qed.





Lemma synthetic_data_untouched n w : untouched w (generate_synthetic_data n w).2.
Proof.
  apply (preserves_synthetic_data
           (λ m s d dir, m = models w ∧ s = scalers w ∧ d = disk w ∧ dir = models_dir w)).
  by repeat split.
Qed.

End Training.

(** ** Best-model selection in [train_fraud_detection_model] *)

Definition fraud_features : list string :=
  ["amount"; "hour"; "day_of_week"; "location_similarity";
   "merchant_category"; "user_behavior_score"; "device_fingerprint";
   "transaction_frequency"; "amount_pattern"; "time_pattern"].

Definition random_forest : estimator := RandomForestClassifier 100 42.
Definition neural_network : estimator := MLPClassifier [64; 32]%Z 500 42 "constant".
Definition svm : estimator := SVC "rbf" true 42.

Definition none_has_no_predict : exn :=
  AttributeError "'NoneType' object has no attribute 'predict'".

Section FraudSelection.
Context `{NP : NumPy} `{LIB : Library}.

(** A run in which the split, the scaling, the three fits and the three
    scorings return: the values they return. *)
Variables (data : DataFrame) (X : list (list scalar)) (y : list scalar).
Variables (X_train X_test y_train y_test X_train_scaled X_test_scaled : ndarray).
Variable scaler_params : transform_params.
Variables (p_rf p_nn p_svm : model_params) (s_rf s_nn s_svm : spec_float).

Hypothesis HX : df_columns fraud_features data = Ok X.
Hypothesis Hy : df_column "is_fraud" data = Ok y.
Hypothesis Hsplit :
  train_test_split (Array2D X) (Array1D y) (dec 2) 42 (Some (Array1D y))
  = Ok (X_train, X_test, y_train, y_test).
Hypothesis Hscale : fit_transform StandardScaler X_train = Ok (scaler_params, X_train_scaled).
Hypothesis Htest : transform_apply StandardScaler scaler_params X_test = Ok X_test_scaled.
Hypothesis Hfit_rf : estimator_fit random_forest X_train_scaled (Some y_train) = Ok p_rf.
Hypothesis Hfit_nn : estimator_fit neural_network X_train_scaled (Some y_train) = Ok p_nn.
Hypothesis Hfit_svm : estimator_fit svm X_train_scaled (Some y_train) = Ok p_svm.
Hypothesis Hscore_rf : estimator_score random_forest p_rf X_test_scaled y_test = Ok s_rf.
Hypothesis Hscore_nn : estimator_score neural_network p_nn X_test_scaled y_test = Ok s_nn.
Hypothesis Hscore_svm : estimator_score svm p_svm X_test_scaled y_test = Ok s_svm.

(** One comparison of the loop: [if score > best_score]. *)
Definition better (best c : pyobj * spec_float) : pyobj * spec_float :=
  if Float.ltb best.2 c.2 then c else best.

Definition fitted : list (pyobj * spec_float) :=
  [(PyEstimator random_forest p_rf, s_rf);
   (PyEstimator neural_network p_nn, s_nn);
   (PyEstimator svm p_svm, s_svm)].

(** The locals [best_model] and [best_score] after the loop. *)
Definition selected : pyobj * spec_float := foldl better (PyNone, Float.zero) fitted.




Lemma selected_none :
  Float.ltb Float.zero s_rf = false → Float.ltb Float.zero s_nn = false →
  Float.ltb Float.zero s_svm = false → selected = (PyNone, Float.zero).
Proof.
  intros H1 H2 H3. unfold selected, fitted, better. cbn [foldl fst snd].
  rewrite H1. cbn [fst snd]. rewrite H2. cbn [fst snd]. by rewrite H3.
Qed.

Lemma selected_some :
  Float.ltb Float.zero s_rf = true ∨ Float.ltb Float.zero s_nn = true
  ∨ Float.ltb Float.zero s_svm = true →
  selected ∈ fitted.
Proof.
  intros H. unfold selected, fitted, better. cbn [foldl fst snd].
  repeat match goal with |- context [if ?b then _ else _] => destruct b eqn:? end;
    cbn [fst snd] in *;
    rewrite !elem_of_cons; try tauto.
  destruct H as [H|[H|H]]; congruence.
Qed.

(** The method stores the selection and the scaler fitted on the training
    portion; with nothing selected, its next statement raises. *)
Lemma train_fraud_run w :
  let out := train_fraud_detection_model data w in
  models out.2 = dict_set "fraud_detection" selected.1 (models w)
  ∧ scalers out.2
    = dict_set "fraud_detection" (PyTransform StandardScaler scaler_params) (scalers w)
  ∧ (selected.1 = PyNone → out.1 = Raise none_has_no_predict).
Proof.
  unfold train_fraud_detection_model, selected, fitted, better.
  unfold random_forest, neural_network, svm, fraud_features in *.
  repeat first
    [ rewrite HX | rewrite Hy | rewrite Hsplit | rewrite Hscale | rewrite Htest
    | rewrite Hfit_rf | rewrite Hscore_rf | rewrite Hfit_nn | rewrite Hscore_nn
    | rewrite Hfit_svm | rewrite Hscore_svm
    | progress cbn [fst snd for_fold foldl dict_items fraud_candidates py_predict]
    | progress unfold fraud_step, bind, lift, logger_info, modify, ret
    | match goal with |- context [if ?b then _ else _] => destruct b end
    | match goal with
      | |- context [match ?r with Ok _ => _ | Raise _ => _ end] => destruct r
      end ];
    split_and!; done.
Qed.

(** C10: the best score starts at 0 and is replaced on a strictly greater
    score only.  When some candidate scores above 0, the entry stored under
    'fraud_detection' is one of the three fitted classifiers; when none
    does (every candidate scores exactly 0), the entry is [None] and the
    prediction step that follows raises. *)
Theorem fraud_best_model_needs_positive_score w :
  let out := train_fraud_detection_model data w in
  ((Float.ltb Float.zero s_rf = true ∨ Float.ltb Float.zero s_nn = true
    ∨ Float.ltb Float.zero s_svm = true) →
   ∃ e p, (e, p) ∈ [(random_forest, p_rf); (neural_network, p_nn); (svm, p_svm)]
          ∧ dict_get "fraud_detection" (models out.2) = Some (PyEstimator e p))
  ∧ ((Float.ltb Float.zero s_rf = false ∧ Float.ltb Float.zero s_nn = false
      ∧ Float.ltb Float.zero s_svm = false) →
     dict_get "fraud_detection" (models out.2) = Some PyNone
     ∧ out.1 = Raise none_has_no_predict)
  ∧ ((s_rf = Float.zero ∧ s_nn = Float.zero ∧ s_svm = Float.zero) →
     dict_get "fraud_detection" (models out.2) = Some PyNone
     ∧ out.1 = Raise none_has_no_predict).
Proof.
  intros out. destruct (train_fraud_run w) as (Hm & _ & Hnone). fold out in Hm, Hnone.
  assert ((Float.ltb Float.zero s_rf = false ∧ Float.ltb Float.zero s_nn = false
           ∧ Float.ltb Float.zero s_svm = false) →
          dict_get "fraud_detection" (models out.2) = Some PyNone
          ∧ out.1 = Raise none_has_no_predict) as Hzero.
  { intros (H1 & H2 & H3). rewrite Hm.
    pose proof (selected_none H1 H2 H3) as Hsel.
    rewrite Hsel in *. split; [apply dict_get_set_eq | by apply Hnone]. }
  split_and!.
  - intros Hpos. rewrite Hm, dict_get_set_eq.
    pose proof (selected_some Hpos) as Hin. unfold fitted in Hin.
    destruct selected as [m s]. cbn [fst].
    rewrite !elem_of_cons, elem_of_nil in Hin.
    destruct Hin as [[= -> _]|[[= -> _]|[[= -> _]|[]]]]; eexists _, _;
      (split; [| reflexivity]); rewrite !elem_of_cons; tauto.
  - exact Hzero.
  - intros (-> & -> & ->). by apply Hzero.
Qed.


End FraudSelection.


(** The selection run on the ten-sample table, with held-out accuracies
    0.5, 0.9 and 0.7: the neural network is stored. *)
Lemma fraud_best_model_needs_positive_score_witness :
  let out := @train_fraud_detection_model Toy.numpy (Toy.library Toy.scores)
               Toy.fraud_table Toy.empty_world in
  Float.ltb Float.zero (dec 9) = true
  ∧ ∃ e p, dict_get "fraud_detection" (models out.2) = Some (PyEstimator e p).
Proof.
  split; [reflexivity |].
  unshelve epose proof
    (@fraud_best_model_needs_positive_score Toy.numpy (Toy.library Toy.scores)
       Toy.fraud_table _ _ _ _ _ _ _ _ _ _ _ _ _ _ _ _ _ _ _ _ _ _ _ _ _ _
       Toy.empty_world) as H; shelve_unifiable.
  all: try (vm_compute; reflexivity).
  destruct H as (H & _).
  destruct H as (e & p & _ & H); [right; left; reflexivity |].
  by exists e, p.
Defined.



(** ** The persistence layer *)

Section Persistence.
Context `{NP : NumPy} `{LIB : Library}.

Implicit Types (w : world) (d : dict pyobj) (fs : gmap string file).

(** What one loop of [load_models] does to its mapping: every listed name
    whose file [<name>.joblib] exists is set to the object in the file; the
    loop stops at a file that does not deserialize. *)
Fixpoint load_entries fs (dir : string) (names : list string) d
  : result unit * dict pyobj :=
  match names with
  | [] => (Ok tt, d)
  | name :: names' =>
      match fs !! path_join dir (name +:+ ".joblib") with
      | None => load_entries fs dir names' d
      | Some (FJoblib o) => load_entries fs dir names' (dict_set name o d)
      | Some _ => (Raise (UnpicklingError (path_join dir (name +:+ ".joblib"))), d)
      end
  end.

Definition is_info (r : level * string) : Prop := r.1 = INFO.

Definition loaded_msg (name kind : string) : level * string :=
  (INFO, "Loaded " +:+ name +:+ kind).

(** One iteration of each loop. *)
Lemma load_model_entry_run dir name w :
  load_model_entry dir name w =
    match disk w !! path_join dir (name +:+ ".joblib") with
    | Some (FJoblib o) =>
        (Ok tt, set_log (λ l, l ++ [loaded_msg name " model"])
                  (set_models (dict_set name o) w))
    | Some _ => (Raise (UnpicklingError (path_join dir (name +:+ ".joblib"))), w)
    | None => (Ok tt, w)
    end.
Proof.
  unfold load_model_entry, bind, path_exists, gets, joblib_load, modify, logger_info, ret.
  destruct (disk w !! path_join dir (name +:+ ".joblib")) as [[o|md|b]|] eqn:E;
    simpl; rewrite ?E; reflexivity.
Qed.

Lemma load_scaler_entry_run dir name w :
  load_scaler_entry dir name w =
    match disk w !! path_join dir (name +:+ ".joblib") with
    | Some (FJoblib o) =>
        (Ok tt, set_log (λ l, l ++ [loaded_msg name " scaler"])
                  (set_scalers (dict_set name o) w))
    | Some _ => (Raise (UnpicklingError (path_join dir (name +:+ ".joblib"))), w)
    | None => (Ok tt, w)
    end.
Proof.
  unfold load_scaler_entry, bind, path_exists, gets, joblib_load, modify, logger_info, ret.
  destruct (disk w !! path_join dir (name +:+ ".joblib")) as [[o|md|b]|] eqn:E;
    simpl; rewrite ?E; reflexivity.
Qed.

Lemma load_model_loop dir names w :
  ∃ extra, Forall is_info extra ∧
    for_each names (load_model_entry dir) w =
      ((load_entries (disk w) dir names (models w)).1,
       set_log (λ l, l ++ extra)
         (set_models (λ _, (load_entries (disk w) dir names (models w)).2) w)).
Proof.
  revert w. induction names as [|name names IH]; intros w.
  - exists []. split; [constructor |]. by destruct w; wsimpl; rewrite app_nil_r.
  - simpl. unfold bind. rewrite load_model_entry_run.
    destruct (disk w !! path_join dir (name +:+ ".joblib")) as [[o|md|b]|] eqn:E.
    + destruct (IH (set_log (λ l, l ++ [loaded_msg name " model"])
                      (set_models (dict_set name o) w))) as (extra & Hinfo & ->).
      exists (loaded_msg name " model" :: extra).
      split; [by constructor |]. destruct w; wsimpl. by rewrite <- app_assoc.
    + exists []. split; [constructor |]. by destruct w; wsimpl; rewrite app_nil_r.
    + exists []. split; [constructor |]. by destruct w; wsimpl; rewrite app_nil_r.
    + apply IH.
Qed.

Lemma load_scaler_loop dir names w :
  ∃ extra, Forall is_info extra ∧
    for_each names (load_scaler_entry dir) w =
      ((load_entries (disk w) dir names (scalers w)).1,
       set_log (λ l, l ++ extra)
         (set_scalers (λ _, (load_entries (disk w) dir names (scalers w)).2) w)).
Proof.
  revert w. induction names as [|name names IH]; intros w.
  - exists []. split; [constructor |]. by destruct w; wsimpl; rewrite app_nil_r.
  - simpl. unfold bind. rewrite load_scaler_entry_run.
    destruct (disk w !! path_join dir (name +:+ ".joblib")) as [[o|md|b]|] eqn:E.
    + destruct (IH (set_log (λ l, l ++ [loaded_msg name " scaler"])
                      (set_scalers (dict_set name o) w))) as (extra & Hinfo & ->).
      exists (loaded_msg name " scaler" :: extra).
      split; [by constructor |]. destruct w; wsimpl. by rewrite <- app_assoc.
    + exists []. split; [constructor |]. by destruct w; wsimpl; rewrite app_nil_r.
    + exists []. split; [constructor |]. by destruct w; wsimpl; rewrite app_nil_r.
    + apply IH.
Qed.

(** A second run of a loop on the mapping the first run produced repeats
    its outcome and changes nothing. *)
Lemma load_entries_keeps fs dir names name o d :
  fs !! path_join dir (name +:+ ".joblib") = Some (FJoblib o) →
  dict_get name d = Some o →
  dict_get name (load_entries fs dir names d).2 = Some o.
Proof.
  intros Hfile. revert d. induction names as [|n names IH]; intros d Hd; simpl; [done |].
  destruct (fs !! path_join dir (n +:+ ".joblib")) as [[o'|md|b]|] eqn:E; simpl; try done.
  - apply IH. destruct (decide (n = name)) as [->|Hne].
    + rewrite dict_get_set_eq. congruence.
    + by rewrite dict_get_set_ne.
  - by apply IH.
Qed.

Lemma load_entries_idem fs dir names d :
  load_entries fs dir names (load_entries fs dir names d).2
  = load_entries fs dir names d.
Proof.
  revert d. induction names as [|n names IH]; intros d; simpl; [done |].
  destruct (fs !! path_join dir (n +:+ ".joblib")) as [[o|md|b]|] eqn:E; simpl; try done.
  rewrite dict_set_id; [apply IH |].
  apply load_entries_keeps; [done | apply dict_get_set_eq].
Qed.

(** A name whose file is absent keeps the entry it had. *)
Lemma load_entries_absent fs dir names name d :
  fs !! path_join dir (name +:+ ".joblib") = None →
  dict_get name (load_entries fs dir names d).2 = dict_get name d.
Proof.
  intros Hfile. revert d. induction names as [|n names IH]; intros d; simpl; [done |].
  destruct (fs !! path_join dir (n +:+ ".joblib")) as [[o'|md|b]|] eqn:E; simpl; try done.
  rewrite IH. apply dict_get_set_ne. intros ->. congruence.
Qed.

Definition manifest_path w : string := path_join (models_dir w) "metadata.json".

(** The outcome of [load_models]: its result and the two mappings, from
    the files, the models directory and the mappings at the call. *)
Definition load_result fs (dir : string) (ms ss : dict pyobj)
  : result unit * dict pyobj * dict pyobj :=
  match fs !! path_join dir "metadata.json" with
  | None => (Ok tt, ms, ss)
  | Some (FJson md) =>
      let ms' := load_entries fs dir (md_models md) ms in
      match ms'.1 with
      | Raise e => (Raise e, ms'.2, ss)
      | Ok _ =>
          let ss' := load_entries fs dir (md_scalers md) ss in
          (ss'.1, ms'.2, ss'.2)
      end
  | Some _ => (Raise (JSONDecodeError (path_join dir "metadata.json")), ms, ss)
  end.

Definition load_outcome w : result unit * dict pyobj * dict pyobj :=
  load_result (disk w) (models_dir w) (models w) (scalers w).

Lemma load_result_idem fs dir ms ss :
  let out := load_result fs dir ms ss in
  load_result fs dir out.1.2 out.2 = out.
Proof.
  unfold load_result.
  destruct (fs !! path_join dir "metadata.json") as [[o|md|b]|] eqn:E; simpl;
    rewrite ?E; try done.
  destruct (load_entries fs dir (md_models md) ms) as [[[]|e] ms'] eqn:E1; simpl.
  - pose proof (load_entries_idem fs dir (md_models md) ms) as H1.
    rewrite E1 in H1. simpl in H1. rewrite H1. simpl.
    by rewrite load_entries_idem.
  - pose proof (load_entries_idem fs dir (md_models md) ms) as H1.
    rewrite E1 in H1. simpl in H1. by rewrite H1.
Qed.

Definition no_manifest_log : list (level * string) :=
  [(INFO, "Loading models...");
   (WARNING, "No model metadata found. Models may not be trained.")].

Lemma load_models_run w :
  ∃ extra,
    load_models w =
      ((load_outcome w).1.1,
       set_log (λ l, l ++ extra)
         (set_scalers (λ _, (load_outcome w).2)
            (set_models (λ _, (load_outcome w).1.2) w)))
    ∧ match disk w !! manifest_path w with
      | None => extra = no_manifest_log
      | Some _ => Forall is_info extra
      end.
Proof.
  unfold load_models, load_outcome, load_result, manifest_path.
  unfold bind at 1 2 3, logger_info, logger_warning, path_exists, json_load. wsimpl.
  destruct (disk w !! path_join (models_dir w) "metadata.json") as [[o|md|b]|] eqn:E.
  - rewrite bool_decide_true by eauto. simpl. unfold bind. simpl. rewrite E.
    exists [(INFO, "Loading models...")]. split; [| by repeat constructor].
    by destruct w.
  - rewrite bool_decide_true by eauto. simpl. unfold bind at 1. simpl. rewrite E.
    unfold bind.
    match goal with |- context [for_each ?n (load_model_entry ?dir) ?W] =>
      destruct (load_model_loop dir n W) as (ex1 & H1 & ->) end.
    simpl.
    destruct (load_entries (disk w) (models_dir w) (md_models md) (models w))
      as [[[]|e] ms] eqn:E1; simpl.
    + match goal with |- context [for_each ?n (load_scaler_entry ?dir) ?W] =>
        destruct (load_scaler_loop dir n W) as (ex2 & H2 & ->) end.
      simpl. exists ((INFO, "Loading models...") :: ex1 ++ ex2).
      split; [| constructor; [done | by apply Forall_app]].
      destruct w; wsimpl. by rewrite <- !app_assoc.
    + exists ((INFO, "Loading models...") :: ex1).
      split; [| by constructor].
      destruct w; wsimpl. by rewrite <- !app_assoc.
  - rewrite bool_decide_true by eauto. simpl. unfold bind. simpl. rewrite E.
    exists [(INFO, "Loading models...")]. split; [| by repeat constructor].
    by destruct w.
  - rewrite bool_decide_false by (by intros [? ?]). simpl.
    exists no_manifest_log. split; [| done]. destruct w; wsimpl.
    by rewrite <- app_assoc.
Qed.

(** *** What [save_models] writes *)

(** The files one loop of [save_models] writes, on top of [fs]. *)
Definition save_entries (suffix dir : string) (items : list (string * pyobj)) fs
  : gmap string file :=
  foldl (λ fs kv, <[path_join dir (kv.1 +:+ suffix) := FJoblib kv.2]> fs) fs items.

Lemma save_model_entry_run dir k v w :
  save_model_entry dir (k, v) w =
    (Ok tt,
     set_log (λ l, l ++ [(INFO, "Saved " +:+ k +:+ " model to "
                                  +:+ path_join dir (k +:+ ".joblib"))])
       (set_disk (<[path_join dir (k +:+ ".joblib") := FJoblib v]>) w)).
Proof. reflexivity. Qed.

Lemma save_scaler_entry_run dir k v w :
  save_scaler_entry dir (k, v) w =
    (Ok tt,
     set_log (λ l, l ++ [(INFO, "Saved " +:+ k +:+ " scaler to "
                                  +:+ path_join dir (k +:+ "_scaler.joblib"))])
       (set_disk (<[path_join dir (k +:+ "_scaler.joblib") := FJoblib v]>) w)).
Proof. reflexivity. Qed.

Lemma save_model_loop dir items w :
  ∃ extra,
    for_each items (save_model_entry dir) w =
      (Ok tt, set_log (λ l, l ++ extra) (set_disk (save_entries ".joblib" dir items) w)).
Proof.
  revert w. induction items as [|[k v] items IH]; intros w.
  - exists []. by destruct w; wsimpl; rewrite app_nil_r.
  - cbn [for_each]. unfold bind. rewrite save_model_entry_run.
    match goal with |- context [for_each items _ ?W] =>
      destruct (IH W) as (extra & ->) end.
    eexists (_ :: extra). destruct w; wsimpl. by rewrite <- app_assoc.
Qed.

Lemma save_scaler_loop dir items w :
  ∃ extra,
    for_each items (save_scaler_entry dir) w =
      (Ok tt,
       set_log (λ l, l ++ extra) (set_disk (save_entries "_scaler.joblib" dir items) w)).
Proof.
  revert w. induction items as [|[k v] items IH]; intros w.
  - exists []. by destruct w; wsimpl; rewrite app_nil_r.
  - cbn [for_each]. unfold bind. rewrite save_scaler_entry_run.
    match goal with |- context [for_each items _ ?W] =>
      destruct (IH W) as (extra & ->) end.
    eexists (_ :: extra). destruct w; wsimpl. by rewrite <- app_assoc.
Qed.

(** The manifest [save_models] writes at time [now]. *)
Definition manifest_of (now : string) w : metadata :=
  {| trained_at := now; md_models := dict_keys (models w);
     md_scalers := dict_keys (scalers w); version := "1.0.0" |}.

(** The files after [save_models]. *)
Definition saved_disk (now : string) w : gmap string file :=
  <[manifest_path w := FJson (manifest_of now w)]>
    (save_entries "_scaler.joblib" (models_dir w) (scalers w)
       (save_entries ".joblib" (models_dir w) (models w) (disk w))).

Lemma save_models_run now w :
  ∃ extra,
    save_models now w =
      (Ok tt, set_log (λ l, l ++ extra) (set_disk (λ _, saved_disk now w) w)).
Proof.
  unfold save_models, saved_disk, manifest_of, manifest_path.
  unfold bind at 1 2 3 4, logger_info. wsimpl.
  match goal with |- context [for_each ?i (save_model_entry ?d) ?W] =>
    destruct (save_model_loop d i W) as (ex1 & ->) end.
  unfold bind at 1 2. wsimpl.
  match goal with |- context [for_each ?i (save_scaler_entry ?d) ?W] =>
    destruct (save_scaler_loop d i W) as (ex2 & ->) end.
  unfold bind, json_dump, logger_info. wsimpl.
  exists ((INFO, "Saving models...") :: ex1 ++ ex2 ++
            [(INFO, "Saved model metadata to "
                      +:+ path_join (models_dir w) "metadata.json")]).
  destruct w; wsimpl. by rewrite <- !app_assoc.
Qed.

Lemma lookup_save_entries_other suffix dir items fs p :
  (∀ k, k ∈ items.*1 → p ≠ path_join dir (k +:+ suffix)) →
  save_entries suffix dir items fs !! p = fs !! p.
Proof.
  revert fs. induction items as [|[k v] items IH]; intros fs Hp; simpl; [done |].
  rewrite IH.
  - apply lookup_insert_ne. intros Heq. eapply (Hp k); [| done].
    apply elem_of_cons. by left.
  - intros k' Hk'. apply Hp. apply elem_of_cons. by right.
Qed.

Lemma lookup_save_entries_in suffix dir items fs k v :
  NoDup items.*1 → (k, v) ∈ items →
  save_entries suffix dir items fs !! path_join dir (k +:+ suffix) = Some (FJoblib v).
Proof.
  revert fs. induction items as [|[k0 v0] items IH]; intros fs Hnd Hin; simpl.
  - by apply elem_of_nil in Hin.
  - simpl in Hnd. apply NoDup_cons in Hnd as [Hout Hnd].
    apply elem_of_cons in Hin as [Heq|Hin].
    + simplify_eq. rewrite lookup_save_entries_other; [apply lookup_insert_eq |].
      intros k' Hk' Heq. apply path_join_inj, string_app_inv_tail in Heq. by subst.
    + by apply IH.
Qed.

(** *** Reading back *)

(** When every listed file holds the object [l] gives for its name, a loop
    of [load_models] appends [l] to a mapping that has none of its keys. *)
Lemma load_entries_recover fs dir (l : list (string * pyobj)) d :
  (∀ k v, (k, v) ∈ l → fs !! path_join dir (k +:+ ".joblib") = Some (FJoblib v)) →
  NoDup (dict_keys (d ++ l)) →
  load_entries fs dir (dict_keys l) d = (Ok tt, d ++ l).
Proof.
  revert d. induction l as [|[k v] l IH]; intros d Hf Hnd; simpl.
  - by rewrite app_nil_r.
  - rewrite (Hf k v) by (apply elem_of_cons; by left).
    unfold dict_keys in Hnd. rewrite fmap_app in Hnd. simpl in Hnd.
    assert (k ∉ dict_keys d) as Hk.
    { apply NoDup_app in Hnd as (_ & Hd & _). intros Hin. apply (Hd k Hin).
      apply elem_of_cons. by left. }
    rewrite dict_set_fresh by done.
    replace (d ++ (k, v) :: l) with ((d ++ [(k, v)]) ++ l) by by rewrite <- app_assoc.
    apply IH.
    + intros k' v' Hin. apply Hf. apply elem_of_cons. by right.
    + unfold dict_keys. rewrite !fmap_app. simpl. by rewrite <- app_assoc.
Qed.

(** *** Trained driver states *)

(** The keys the four training methods store under. *)
Definition trained_names : list string :=
  ["fraud_detection"; "spending_prediction"; "sentiment_analysis"; "anomaly_detection"].

(** The states a driver reaches by training: both mappings are dictionaries
    keyed by the four names, and a scaler is stored only after its model. *)
Record trained w : Prop := {
  trained_models_wf : dict_wf (models w);
  trained_scalers_wf : dict_wf (scalers w);
  trained_model_names : ∀ k, k ∈ dict_keys (models w) → k ∈ trained_names;
  trained_scaler_has_model : ∀ k, k ∈ dict_keys (scalers w) → k ∈ dict_keys (models w);
}.

Lemma trained_name_not_scaler k s : k ∈ trained_names → k ≠ s +:+ "_scaler".
Proof.
  unfold trained_names. rewrite !elem_of_cons, elem_of_nil.
  intros [->|[->|[->|[->|[]]]]] H;
    repeat (destruct s as [|? s]; [discriminate H | first [discriminate H | injection H as _ H]]).
Qed.

Lemma saved_manifest now w :
  saved_disk now w !! manifest_path w = Some (FJson (manifest_of now w)).
Proof. apply lookup_insert_eq. Qed.

(** After [save_models] the file [<name>.joblib] holds the model stored
    under [name]. *)
Lemma saved_model_file now w k v :
  trained w → (k, v) ∈ models w →
  saved_disk now w !! path_join (models_dir w) (k +:+ ".joblib") = Some (FJoblib v).
Proof.
  intros Ht Hin. unfold saved_disk, manifest_path.
  rewrite lookup_insert_ne.
  2:{ intros Heq%path_join_inj. symmetry in Heq. by apply joblib_ne_metadata in Heq. }
  rewrite lookup_save_entries_other.
  - apply lookup_save_entries_in; [apply Ht | done].
  - intros s _ Heq%path_join_inj%joblib_scaler_clash.
    eapply trained_name_not_scaler; [| exact Heq].
    apply Ht. apply list_elem_of_fmap. by exists (k, v).
Qed.

(** What the scaler loop of [load_models] then reads for each saved scaler
    name: the file it opens is [<name>.joblib], the model's. *)
Definition scalers_as_loaded w : dict pyobj :=
  (λ s, (s, default PyNone (dict_get s (models w)))) <$> dict_keys (scalers w).

Lemma scalers_as_loaded_keys w : dict_keys (scalers_as_loaded w) = dict_keys (scalers w).
Proof.
  unfold scalers_as_loaded, dict_keys. rewrite <- list_fmap_compose.
  by rewrite list_fmap_id.
Qed.

Lemma roundtrip_result now w :
  trained w →
  load_result (saved_disk now w) (models_dir w) [] []
  = (Ok tt, models w, scalers_as_loaded w).
Proof.
  intros Ht. unfold load_result. fold (manifest_path w). rewrite saved_manifest.
  cbn [manifest_of md_models md_scalers].
  rewrite (load_entries_recover _ _ (models w) []); cycle 1.
  { intros k v Hin. by apply saved_model_file. }
  { apply Ht. }
  cbn [fst snd]. rewrite <- scalers_as_loaded_keys.
  rewrite (load_entries_recover _ _ (scalers_as_loaded w) []); [done | |].
  - intros k v Hin. unfold scalers_as_loaded in Hin.
    apply list_elem_of_fmap in Hin as (s & [= -> ->] & Hs).
    apply saved_model_file; [done |].
    apply (trained_scaler_has_model _ Ht), dict_get_is_Some in Hs as [m Hm].
    rewrite Hm. simpl. by apply dict_get_elem_of.
  - simpl. rewrite scalers_as_loaded_keys. apply Ht.
Qed.

(** [load_models] leaves the files and the directory names alone. *)
Lemma load_models_frame w :
  disk (load_models w).2 = disk w ∧ models_dir (load_models w).2 = models_dir w.
Proof. destruct (load_models_run w) as (extra & -> & _). by destruct w. Qed.

Lemma load_models_fields w :
  (load_models w).1 = (load_outcome w).1.1
  ∧ models (load_models w).2 = (load_outcome w).1.2
  ∧ scalers (load_models w).2 = (load_outcome w).2.
Proof. destruct (load_models_run w) as (extra & -> & _). by destruct w. Qed.

(** C4: when [metadata.json] is absent from the models directory,
    [load_models] returns without an exception, logs one warning, and
    leaves the model mapping and the scaler mapping as they were. *)
Theorem load_models_without_manifest w :
  disk w !! manifest_path w = None →
  let out := load_models w in
  out.1 = Ok tt
  ∧ models out.2 = models w
  ∧ scalers out.2 = scalers w
  ∧ log out.2 = log w ++ no_manifest_log.
Proof.
  intros Hno out. subst out.
  destruct (load_models_run w) as (extra & -> & Hextra).
  rewrite Hno in Hextra. subst extra.
  unfold load_outcome, load_result. fold (manifest_path w). rewrite Hno.
  by destruct w.
Qed.

(** C7: a second call of [load_models] repeats the outcome of the first and
    leaves both mappings as the first call left them: the same keys in the
    same order, each with the same object. *)
Theorem load_models_idempotent w :
  let w1 := (load_models w).2 in
  let w2 := (load_models w1).2 in
  (load_models w1).1 = (load_models w).1
  ∧ models w2 = models w1
  ∧ scalers w2 = scalers w1
  ∧ dict_keys (models w2) = dict_keys (models w1)
  ∧ dict_keys (scalers w2) = dict_keys (scalers w1)
  ∧ (∀ name, dict_get name (models w2) = dict_get name (models w1))
  ∧ (∀ name, dict_get name (scalers w2) = dict_get name (scalers w1)).
Proof.
  intros w1 w2. subst w1 w2.
  destruct (load_models_fields (load_models w).2) as (Hr2 & Hm2 & Hs2).
  destruct (load_models_fields w) as (Hr1 & Hm1 & Hs1).
  destruct (load_models_frame w) as (Hd & Hdir).
  assert (load_outcome (load_models w).2 = load_outcome w) as Hout.
  { unfold load_outcome at 1. rewrite Hd, Hdir, Hm1, Hs1. apply load_result_idem. }
  rewrite Hout in Hr2, Hm2, Hs2.
  rewrite Hr2, Hm2, Hs2, Hr1, Hm1, Hs1. done.
Qed.

(** C2: after [save_models] and [load_models] in a fresh driver on the same
    models directory, the loaded model mapping has the keys of the saved one
    and each loaded model predicts as the saved model does, on every input. *)
Theorem save_load_roundtrip now w :
  trained w →
  let saved := save_models now w in
  let fresh := init (models_dir w) (data_dir w) saved.2 in
  let loaded := load_models fresh in
  saved.1 = Ok tt
  ∧ loaded.1 = Ok tt
  ∧ dict_keys (models loaded.2) = dict_keys (models w)
  ∧ (∀ name m, dict_get name (models w) = Some m →
       ∃ m', dict_get name (models loaded.2) = Some m'
             ∧ ∀ X, py_predict m' X = py_predict m X).
Proof.
  intros Ht saved fresh loaded. subst loaded fresh saved.
  destruct (save_models_run now w) as (extra & ->).
  match goal with |- context [load_models ?W] =>
    destruct (load_models_fields W) as (-> & -> & _) end.
  unfold load_outcome. cbn [init disk models_dir models scalers set_log set_disk snd fst].
  rewrite roundtrip_result by done. cbn [fst snd].
  split_and!; [done | done | done |].
  intros name m Hm. exists m. by split.
Qed.

(** The scaler entries [load_models] produces after [save_models]: under
    each saved scaler name, the model saved under that name. *)
Lemma save_load_scalers now w :
  trained w →
  scalers (load_models (init (models_dir w) (data_dir w) (save_models now w).2)).2
  = scalers_as_loaded w.
Proof.
  intros Ht. destruct (save_models_run now w) as (extra & ->).
  match goal with |- context [load_models ?W] =>
    destruct (load_models_fields W) as (_ & _ & ->) end.
  unfold load_outcome. cbn [init disk models_dir models scalers set_log set_disk snd fst].
  by rewrite roundtrip_result.
Qed.

Definition readable fs (dir : string) (names : list string) : Prop :=
  ∀ n f, n ∈ names → fs !! path_join dir (n +:+ ".joblib") = Some f → ∃ o, f = FJoblib o.

Lemma load_entries_readable fs dir names d :
  readable fs dir names → (load_entries fs dir names d).1 = Ok tt.
Proof.
  revert d. induction names as [|n names IH]; intros d Hr; simpl; [done |].
  assert (readable fs dir names) as Hr'.
  { intros n' f Hn'. apply Hr. apply elem_of_cons. by right. }
  destruct (fs !! path_join dir (n +:+ ".joblib")) as [f|] eqn:E; [| by apply IH].
  destruct (Hr n f) as [o ->]; [apply elem_of_cons; by left | done |].
  by apply IH.
Qed.

(** C3, as the code has it: for a name listed under 'models' whose file
    [<name>.joblib] is absent, [load_models] (on a directory whose other
    listed files deserialize) raises no exception and leaves the entry of
    that name as it was, absent if it was absent; every record the call
    logs has level INFO: no warning is emitted. *)
Theorem load_models_missing_file w md name :
  disk w !! manifest_path w = Some (FJson md) →
  readable (disk w) (models_dir w) (md_models md ++ md_scalers md) →
  name ∈ md_models md →
  disk w !! path_join (models_dir w) (name +:+ ".joblib") = None →
  let out := load_models w in
  out.1 = Ok tt
  ∧ dict_get name (models out.2) = dict_get name (models w)
  ∧ ∃ extra, log out.2 = log w ++ extra ∧ Forall is_info extra.
Proof.
  intros Hmd Hread Hname Hfile out. subst out.
  destruct (load_models_run w) as (extra & -> & Hextra).
  rewrite Hmd in Hextra.
  unfold load_outcome, load_result. fold (manifest_path w). rewrite Hmd.
  rewrite load_entries_readable.
  2:{ intros n f Hn. apply Hread. apply elem_of_app. by left. }
  cbn [fst snd].
  split_and!.
  - apply load_entries_readable. intros n f Hn. apply Hread. apply elem_of_app. by right.
  - destruct w; wsimpl. by apply load_entries_absent.
  - exists extra. split; [by destruct w | done].
Qed.

End Persistence.

(** ** A full training run *)

Section WholeRun.
Context `{NP : NumPy} `{LIB : Library}.

Implicit Types (w : world).





(** Training keeps a driver in the trained states, also when it raises. *)
Lemma stored_trained k w w' :
  k ∈ trained_names → trained w → stored k w w' → trained w'.
Proof.
  intros Hk [Hmw Hsw Hn Hsm] (m & s & Hm & Hs & _). split.
  - rewrite Hm. by apply dict_set_wf.
  - rewrite Hs. by apply dict_set_wf.
  - intros k'. rewrite Hm, elem_of_dict_keys_set. intros [->|?]; auto.
  - intros k'. rewrite Hm, Hs, !elem_of_dict_keys_set. intros [->|?]; auto.
Qed.

Lemma stored_model_trained k w w' :
  k ∈ trained_names → trained w → stored_model k w w' → trained w'.
Proof.
  intros Hk [Hmw Hsw Hn Hsm] (m & Hm & Hs & _). split.
  - rewrite Hm. by apply dict_set_wf.
  - by rewrite Hs.
  - intros k'. rewrite Hm, elem_of_dict_keys_set. intros [->|?]; auto.
  - intros k'. rewrite Hm, Hs, !elem_of_dict_keys_set. auto.
Qed.

Lemma untouched_trained w w' : trained w → untouched w w' → trained w'.
Proof.
  intros [Hmw Hsw Hn Hsm] (Hm & Hs & _). split; rewrite ?Hm, ?Hs; auto.
Qed.

Lemma init_trained models_dir' data_dir' w : trained (init models_dir' data_dir' w).
Proof.
  split; cbn [init models scalers].
  - apply NoDup_nil_2.
  - apply NoDup_nil_2.
  - by intros k ?%elem_of_nil.
  - by intros k ?%elem_of_nil.
Qed.

Lemma train_fraud_trained data : preserves trained (train_fraud_detection_model data).
Proof.
  intros w Ht. destruct (train_fraud_outcome data w) as [[Hun _]|Hst].
  - by eapply untouched_trained.
  - eapply stored_trained; [| done | done]. set_solver.
Qed.

Lemma train_spending_trained data :
  preserves trained (train_spending_prediction_model data).
Proof.
  intros w Ht. destruct (train_spending_outcome data w) as [[Hun _]|Hst].
  - by eapply untouched_trained.
  - eapply stored_trained; [| done | done]. set_solver.
Qed.

Lemma train_sentiment_trained data :
  preserves trained (train_sentiment_analysis_model data).
Proof.
  intros w Ht. destruct (train_sentiment_outcome data w) as [[Hun _]|Hst].
  - by eapply untouched_trained.
  - eapply stored_trained; [| done | done]. set_solver.
Qed.

Lemma train_anomaly_trained data :
  preserves trained (train_anomaly_detection_model data).
Proof.
  intros w Ht. destruct (train_anomaly_outcome data w) as [[Hun _]|Hst].
  - by eapply untouched_trained.
  - eapply stored_model_trained; [| done | done]. set_solver.
Qed.

Lemma save_models_trained now : preserves trained (save_models now).
Proof.
  intros w Ht. destruct (save_models_run now w) as (extra & ->).
  destruct Ht. by split.
Qed.

(** Every state [main] can leave the driver in, in training mode, is a
    trained state. *)
Lemma train_all_models_trained now : preserves trained (train_all_models now).
Proof.
  unfold train_all_models.
  repeat lazymatch goal with
    | |- preserves _ (bind _ _) => apply preserves_bind
    | |- preserves _ (train_fraud_detection_model _) => apply train_fraud_trained
    | |- preserves _ (train_spending_prediction_model _) => apply train_spending_trained
    | |- preserves _ (train_sentiment_analysis_model _) => apply train_sentiment_trained
    | |- preserves _ (train_anomaly_detection_model _) => apply train_anomaly_trained
    | |- preserves _ (save_models _) => apply save_models_trained
    | |- preserves _ (let '(_, _) := ?p in _) => destruct p
    | |- ∀ _, _ => intros ?
    end.
  - intros w Ht. destruct Ht. by split.
  - intros w Ht. eapply untouched_trained; [exact Ht | apply synthetic_data_untouched].
  - intros w Ht. destruct Ht. by split.
Qed.

End WholeRun.






(** A fitted random forest and a fitted scaler, as the toy library gives them. *)
Definition toy_forest : @pyobj (Toy.library Toy.scores) :=
  @PyEstimator (Toy.library Toy.scores) (RandomForestClassifier 100 42) 1%Z.
Definition toy_scaler : @pyobj (Toy.library Toy.scores) :=
  @PyTransform (Toy.library Toy.scores) StandardScaler 7%Z.

(** C1 fails on the code: [save_models] writes the scaler to
    [fraud_detection_scaler.joblib], but [load_models] reads the scaler
    entry from [fraud_detection.joblib]; the entry it restores is the
    model. *)
Theorem load_models_restores_model_as_scaler :
  let w := Toy.one_model_world toy_forest toy_scaler in
  let saved := save_models "2024-01-01T00:00:00" w in
  let loaded := load_models (init "models" "data" saved.2) in
  disk saved.2 !! "models/fraud_detection_scaler.joblib" = Some (FJoblib toy_scaler)
  ∧ md_scalers (manifest_of "2024-01-01T00:00:00" w) = ["fraud_detection"]
  ∧ loaded.1 = Ok tt
  ∧ dict_get "fraud_detection" (scalers loaded.2) = Some toy_forest
  ∧ dict_get "fraud_detection" (scalers loaded.2) ≠ dict_get "fraud_detection" (scalers w).
Proof.
  split_and!; try (vm_compute; reflexivity).
  intros H. vm_compute in H. discriminate H.
Qed.

Lemma save_load_roundtrip_witness :
  let w := Toy.one_model_world toy_forest toy_scaler in
  trained w
  ∧ dict_keys (models (load_models (init "models" "data"
                                      (save_models "2024-01-01T00:00:00" w).2)).2)
    = ["fraud_detection"].
Proof.
  assert (trained (Toy.one_model_world toy_forest toy_scaler)) as Ht.
  { split.
    - apply NoDup_singleton.
    - apply NoDup_singleton.
    - intros k Hk. apply list_elem_of_singleton in Hk as ->. apply elem_of_cons. by left.
    - intros k Hk. exact Hk. }
  split; [exact Ht |].
  destruct (save_load_roundtrip "2024-01-01T00:00:00" _ Ht) as (_ & _ & Hk & _).
  exact Hk.
Defined.

(** C3 as stated fails: a listed model whose file is absent is skipped
    without any warning; the call logs its opening line only. *)
Lemma load_models_missing_file_silent :
  let w := @Toy.dangling_world (Toy.library Toy.scores) in
  let out := load_models w in
  "fraud_detection" ∈ md_models
    {| trained_at := "2024-01-01T00:00:00"; md_models := ["fraud_detection"];
       md_scalers := []; version := "1.0.0" |}
  ∧ disk w !! "models/fraud_detection.joblib" = None
  ∧ out.1 = Ok tt
  ∧ dict_get "fraud_detection" (models out.2) = None
  ∧ log out.2 = [(INFO, "Loading models...")]
  ∧ ¬ ∃ msg, (WARNING, msg) ∈ log out.2.
Proof.
  split_and!; try (vm_compute; reflexivity).
  - apply elem_of_cons. by left.
  - intros [msg Hin]. vm_compute in Hin.
    apply list_elem_of_singleton in Hin. discriminate Hin.
Qed.

Lemma load_models_missing_file_witness :
  let w := @Toy.dangling_world (Toy.library Toy.scores) in
  (load_models w).1 = Ok tt
  ∧ dict_get "fraud_detection" (models (load_models w).2) = None.
Proof.
  destruct (load_models_missing_file (@Toy.dangling_world (Toy.library Toy.scores))
              {| trained_at := "2024-01-01T00:00:00"; md_models := ["fraud_detection"];
                 md_scalers := []; version := "1.0.0" |} "fraud_detection")
    as (H1 & H2 & _).
  - reflexivity.
  - intros n f Hn Hf. apply list_elem_of_singleton in Hn as ->.
    vm_compute in Hf. discriminate Hf.
  - apply elem_of_cons. by left.
  - reflexivity.
  - split; [exact H1 | exact H2].
Defined.

Lemma load_models_without_manifest_witness :
  let w := @Toy.empty_world (Toy.library Toy.scores) in
  disk w !! manifest_path w = None
  ∧ (load_models w).1 = Ok tt
  ∧ models (load_models w).2 = models w.
Proof.
  split; [reflexivity |].
  destruct (load_models_without_manifest (@Toy.empty_world (Toy.library Toy.scores)))
    as (H1 & H2 & _); [reflexivity | by split].
Defined.

(** * Further properties of the script

    What the generators, the trainers and [main] do at the edges of their
    inputs, what they keep, and how they compose. *)

(** ** Negative sample counts in [int(n_samples * 0.8)] *)

(** The sign of a float, replaced. *)
Definition set_sign (s : bool) (x : spec_float) : spec_float :=
  match x with
  | S754_zero _ => S754_zero s
  | S754_infinity _ => S754_infinity s
  | S754_nan => S754_nan
  | S754_finite _ m e => S754_finite s m e
  end.

(** Rounding to nearest even treats the two signs alike. *)
Lemma round_aux_sign (sx : bool) (m e : Z) (l : location) :
  binary_round_aux 53 1024 sx m e l = set_sign sx (binary_round_aux 53 1024 false m e l).
Proof.
  unfold binary_round_aux.
  destruct (shr_fexp 53 1024 m e l) as [mrs e1]. cbn [fst snd].
  destruct (shr_fexp 53 1024 _ e1 loc_Exact) as [mrs2 e2]. cbn [fst snd].
  destruct (shr_m mrs2); try reflexivity.
  destruct (e2 <=? 1024 - 53)%Z; reflexivity.
Qed.

Lemma of_Z_opp (n : positive) :
  Float.of_Z (Z.neg n) = set_sign true (Float.of_Z (Z.pos n)).
Proof.
  unfold Float.of_Z, binary_normalize, binary_round, Float.prec, Float.emax.
  destruct (shl_align n 0 _) as [mz ez].
  rewrite round_aux_sign. symmetry. rewrite round_aux_sign.
  by destruct (binary_round_aux 53 1024 false (Z.pos mz) ez loc_Exact).
Qed.

Lemma to_int_opp (y : spec_float) (k : Z) :
  Float.to_int (set_sign false y) = Ok k → Float.to_int (set_sign true y) = Ok (- k)%Z.
Proof.
  destruct y as [s|s| |s m e]; simpl; intros H; try discriminate H.
  - by injection H as <-.
  - injection H as <-. reflexivity.
Qed.

(** [int(N * 0.8)] truncates toward zero: for a negative count it is the
    opposite of the value at [-N]. *)
Lemma int_mul_0_8_neg (N : Z) :
  (- (3 * 2 ^ 49) < N < 0)%Z →
  ∃ x, Float.int_mul N f0_8 = Ok x ∧ Float.to_int x = Ok (- (4 * - N / 5))%Z.
Proof.
  intros HN. destruct N as [|n|n]; try lia.
  destruct (int_mul_0_8 (Z.pos n)) as (x & Hmul & Hint); [lia |].
  destruct (of_Z_spec (Z.pos n)) as (mx & d & HofZ & _); [lia |].
  unfold Float.int_mul, Float.of_int in *. rewrite of_Z_opp. rewrite HofZ in *.
  injection Hmul as <-. cbn [set_sign].
  eexists. split; [reflexivity |].
  change (- Z.neg n)%Z with (Z.pos n).
  unfold f0_8, Float.mul, SFmul, Float.prec, Float.emax in *. cbn [xorb] in *.
  rewrite round_aux_sign. apply to_int_opp. by rewrite <- round_aux_sign.
Qed.

(** [np.maximum(0, x)] is never below zero (it is NaN when [x] is). *)
Lemma maximum_zero_not_negative (x : spec_float) :
  Float.ltb (Float.maximum (Float.of_Z 0) x) Float.zero = false.
Proof.
  change (Float.of_Z 0) with Float.zero. unfold Float.maximum.
  cbn [Float.is_nan Float.zero].
  destruct (Float.is_nan x) eqn:En.
  - destruct x; try discriminate En; reflexivity.
  - destruct (Float.ltb Float.zero x) eqn:E; [| reflexivity].
    destruct (Float.ltb x Float.zero) eqn:E'; [| reflexivity].
    by rewrite <- (float_ltb_irrefl Float.zero), (float_ltb_trans _ _ _ E E').
Qed.

(** ** Outcomes of a computation *)

Section outcomes.
Context {S : Type}.

(** Whenever [m] returns, its value satisfies [Q]. *)
Definition ensures {A} (m : M S A) (Q : A → Prop) : Prop :=
  ∀ s a s', m s = (Ok a, s') → Q a.

Lemma ensures_ret {A} (a : A) (Q : A → Prop) : Q a → ensures (ret a) Q.
Proof. intros HQ s a' s' [= <- _]. exact HQ. Qed.

Lemma ensures_lift {A} (r : result A) (Q : A → Prop) :
  (∀ a, r = Ok a → Q a) → ensures (lift r) Q.
Proof. intros HQ s a s' [= -> _]. by apply HQ. Qed.

Lemma ensures_any {A} (m : M S A) : ensures m (λ _, True).
Proof. by intros s a s' _. Qed.

Lemma ensures_bind {A B} (m : M S A) (k : A → M S B) (Q : A → Prop) R :
  ensures m Q → (∀ a, Q a → ensures (k a) R) → ensures (bind m k) R.
Proof.
  intros Hm Hk s b s' H. apply bind_ok_inv in H as (a & s1 & H1 & H2).
  eapply Hk; [by eapply Hm | exact H2].
Qed.

(** A loop invariant, indexed by the number of iterations done. *)
Lemma ensures_for_fold {A B} (I : nat → B → Prop) (l : list A) (acc : B)
    (body : B → A → M S B) :
  I 0 acc → (∀ i acc x, I i acc → ensures (body acc x) (I (Datatypes.S i))) →
  ensures (for_fold l acc body) (I (length l)).
Proof.
  intros H0 Hbody.
  enough (∀ i acc, I i acc → ensures (for_fold l acc body) (I (i + length l))) as H
    by exact (H 0 acc H0).
  induction l as [|x l IH]; intros i a Hi; simpl.
  - rewrite Nat.add_0_r. by apply ensures_ret.
  - eapply ensures_bind; [by apply Hbody |]. intros a' Ha'.
    replace (i + Datatypes.S (length l)) with (Datatypes.S i + length l) by lia.
    by apply IH.
Qed.

(** [m] raises [e] from every state. *)
Definition raises {A} (m : M S A) (e : exn) : Prop := ∀ s, (m s).1 = Raise e.

Lemma raises_bind {A B} (m : M S A) (k : A → M S B) e :
  raises m e → raises (bind m k) e.
Proof.
  intros Hm s. specialize (Hm s). unfold bind.
  destruct (m s) as [[a|e'] s1]; simpl in *; [discriminate Hm | by injection Hm as ->].
Qed.


Lemma lift_ok_inv {A} (r : result A) (s s' : S) a :
  lift r s = (Ok a, s') → r = Ok a ∧ s' = s.
Proof. by intros [= -> ->]. Qed.

Lemma modify_ok_inv (f : S → S) s (u : unit) s' :
  modify f s = (Ok u, s') → s' = f s.
Proof. by intros [= <-]. Qed.

End outcomes.

(** ** The generators at the edges of their input *)

Section GeneratorEdges.
Context `{NP : NumPy} `{LIB : Library}.

Lemma raises_after {A B} (m : M world A) (k : A → M world B) (Q : A → Prop) e :
  returns m Q → (∀ a, Q a → raises (k a) e) → raises (bind m k) e.
Proof.
  intros Hm Hk w. destruct (Hm w) as (a & w1 & E & HQ).
  unfold bind. rewrite E. by apply Hk.
Qed.

Lemma raises_draw {A} (f : nat → rng → list A * rng) wrap n :
  (n < 0)%Z → raises (draw f wrap n) negative_dimensions.
Proof. intros Hn w. unfold draw. by destruct (Z.ltb_spec n 0); [| lia]. Qed.

Lemma returns_any_draw {A} (f : nat → rng → list A * rng) wrap n :
  (0 ≤ n)%Z → returns (draw f wrap n) (λ _, True).
Proof.
  intros Hn w. unfold draw. destruct (Z.ltb_spec n 0); [lia |].
  destruct (f (Z.to_nat n) (np_random w)). by eexists _, _.
Qed.

Lemma draw_ok_inv {A} (f : nat → rng → list A * rng) wrap n w v w' :
  draw f wrap n w = (Ok v, w') →
  (0 ≤ n)%Z ∧ v = wrap <$> (f (Z.to_nat n) (np_random w)).1.
Proof.
  unfold draw. destruct (Z.ltb_spec n 0); [discriminate |].
  destruct (f (Z.to_nat n) (np_random w)). by intros [= <- _].
Qed.

Lemma returns_ensures {A} (m : M world A) (Q : A → Prop) :
  returns m (λ _, True) → ensures m Q → returns m Q.
Proof.
  intros Hr He w. destruct (Hr w) as (a & w' & E & _).
  exists a, w'. split; [done | by eapply He].
Qed.

Lemma returns_for_fold {A B} (l : list A) (acc : B) (body : B → A → M world B) :
  (∀ acc x, returns (body acc x) (λ _, True)) →
  returns (for_fold l acc body) (λ _, True).
Proof.
  intros Hbody. revert acc. induction l as [|x l IH]; intros acc; simpl.
  - by apply returns_ret.
  - eapply returns_bind; [apply Hbody | intros acc' _; apply IH].
Qed.

Lemma returns_random : returns np_random_random (λ _, True).
Proof.
  intros w. unfold np_random_random. destruct (rng_random (np_random w)).
  by eexists _, _.
Qed.

Lemma returns_randint1 lo hi (Q : Z → Prop) :
  (∀ g, Q (rng_randint1 lo hi g).1) → returns (np_random_randint1 lo hi) Q.
Proof.
  intros HQ w. unfold np_random_randint1. specialize (HQ (np_random w)).
  destruct (rng_randint1 lo hi (np_random w)). by eexists _, _.
Qed.

Lemma elementwise_ok_inv f a b c :
  elementwise f a b = Ok c → length a = length b ∧ length c = length a.
Proof.
  unfold elementwise. destruct (Nat.eqb_spec (length a) (length b)); [| discriminate].
  intros [= <-]. split; [done |]. rewrite length_zip_with. lia.
Qed.

Lemma pd_DataFrame_ok_inv d df : pd_DataFrame d = Ok df → df = d.
Proof.
  destruct d as [|[k c] rest]; simpl; [by intros [= <-] |].
  destruct (forallb _ rest); [by intros [= <-] | discriminate].
Qed.

(** *** The fraud table *)

(** X1: a negative sample count makes the fraud generator raise numpy's
    [ValueError] for a negative array size: at the first draw when
    [int(n_samples * 0.8)] is negative, and at the first draw of the fraud
    rows when it is [0] (at [n_samples = -1]). *)
Theorem fraud_data_negative_count (N : Z) :
  (- (3 * 2 ^ 49) < N < 0)%Z →
  ∀ w, (_generate_fraud_data N w).1 = Raise negative_dimensions.
Proof.
  intros HN. destruct (int_mul_0_8_neg N HN) as (x & Hmul & Hint).
  set (k := (- (4 * - N / 5))%Z) in *.
  assert (k ≤ 0)%Z as Hk0.
  { subst k. assert (0 ≤ 4 * - N / 5)%Z by (apply Z.div_pos; lia). lia. }
  change (raises (_generate_fraud_data N) negative_dimensions).
  unfold _generate_fraud_data.
  eapply raises_after; [apply returns_seed | intros _ _].
  eapply raises_after; [by apply (returns_lift _ x (λ a, a = x)) | intros ? ->].
  eapply raises_after; [by apply (returns_lift _ k (λ a, a = k)) | intros ? ->].
  unfold np_random_normal, np_random_randint, np_random_uniform, np_zeros, np_ones.
  destruct (Z.eq_dec k 0%Z) as [Ek|Ek].
  - rewrite Ek.
    do 10 (eapply raises_after; [apply returns_any_draw; lia | intros ? _]).
    eapply raises_after; [apply returns_full; lia | intros ? _].
    cbv zeta. apply raises_bind, raises_draw. lia.
  - apply raises_bind, raises_draw. lia.
Qed.

(** The columns of the fraud table, in the order of the generator's dict
    literal. *)
Definition fraud_columns : list string := fraud_features ++ ["is_fraud"].

(** The layout of the table, when [int(n_samples * 0.8)] is [k]. *)
Lemma fraud_data_layout (N k : Z) (x : spec_float) :
  Float.int_mul N f0_8 = Ok x → Float.to_int x = Ok k → (0 ≤ k ≤ N)%Z →
  returns (_generate_fraud_data N)
    (λ df, dict_keys df = fraud_columns
           ∧ Forall (λ kc, length kc.2 = Z.to_nat N) df
           ∧ dict_get "is_fraud" df
             = Some (replicate (Z.to_nat k) (SFloat Float.zero)
                     ++ replicate (Z.to_nat (N - k)) (SFloat Float.one))).
Proof.
  intros Hmul Hint Hk. unfold _generate_fraud_data.
  eapply returns_bind; [apply returns_seed | intros _ _].
  eapply returns_bind; [by apply (returns_lift _ x (λ a, a = x)) | intros ? ->].
  eapply returns_bind; [by apply (returns_lift _ k (λ a, a = k)) | intros ? ->].
  unfold np_random_normal, np_random_randint, np_random_uniform, np_zeros, np_ones.
  do 10 (eapply returns_bind;
         [ apply returns_draw;
           [ lia | intros; first [ apply rng_normal_length | apply rng_randint_length
                                 | apply rng_uniform_length ] ]
         | intros ? ? ]).
  eapply returns_bind; [apply returns_full; lia | intros ? ->].
  cbv zeta.
  do 10 (eapply returns_bind;
         [ apply returns_draw;
           [ lia | intros; first [ apply rng_normal_length | apply rng_randint_length
                                 | apply rng_uniform_length ] ]
         | intros ? ? ]).
  eapply returns_bind; [apply returns_full; lia | intros ? ->].
  eapply returns_bind; [apply combine_eleven | intros ? ->].
  cbv beta in *.
  assert (Z.to_nat k + Z.to_nat (N - k) = Z.to_nat N) as Hsum by lia.
  eapply returns_lift.
  - apply (pd_DataFrame_ok _ (Z.to_nat N)).
    repeat (apply Forall_cons; split;
            [cbn [snd]; rewrite length_app, ?length_replicate; congruence |]).
    apply Forall_nil_2.
  - split_and!; [reflexivity | | reflexivity].
    repeat (apply Forall_cons; split;
            [cbn [snd]; rewrite length_app, ?length_replicate; congruence |]).
    apply Forall_nil_2.
Qed.

(** X2: for every sample count [0 <= N < 3 * 2^49] the fraud generator
    returns a table of the ten feature columns followed by 'is_fraud', each
    of [N] values, and the rows are not shuffled: the label column is
    [floor(0.8 N)] zeros followed by [N - floor(0.8 N)] ones. *)
Theorem fraud_data_rows_in_class_order (N : Z) :
  (0 ≤ N < 3 * 2 ^ 49)%Z →
  ∀ w, ∃ df w',
    _generate_fraud_data N w = (Ok df, w')
    ∧ dict_keys df
      = ["amount"; "hour"; "day_of_week"; "location_similarity"; "merchant_category";
         "user_behavior_score"; "device_fingerprint"; "transaction_frequency";
         "amount_pattern"; "time_pattern"; "is_fraud"]
    ∧ Forall (λ kc, length kc.2 = Z.to_nat N) df
    ∧ dict_get "is_fraud" df
      = Some (replicate (Z.to_nat (4 * N / 5)) (SFloat Float.zero)
              ++ replicate (Z.to_nat (N - 4 * N / 5)) (SFloat Float.one)).
Proof.
  intros HN w. destruct (int_mul_0_8 N HN) as (x & Hmul & Hint).
  assert (0 ≤ 4 * N / 5 ≤ N)%Z as Hk.
  { split; [apply Z.div_pos; lia | apply Z.div_le_upper_bound; lia]. }
  destruct (fraud_data_layout N _ x Hmul Hint Hk w) as (df & w' & E & Hkeys & Hlen & Hlab).
  by exists df, w'.
Qed.

(** *** The sentiment table *)

(** A row of the sentiment table: a sentence of one of the two templates,
    labelled with the template's sentiment. *)
Definition sentiment_row (text label : scalar) : Prop :=
  ∃ words : list string,
    (text = SStr ("The market shows " +:+ join " " words +:+ " with strong fundamentals.")
     ∧ label = SStr "positive")
    ∨ (text = SStr ("Investors worry about " +:+ join " " words +:+ " affecting returns.")
       ∧ label = SStr "negative").

Definition sentiment_table (n : nat) (df : DataFrame) : Prop :=
  ∃ texts labels,
    df = [("text", texts); ("sentiment", labels)]
    ∧ length texts = n ∧ Forall2 sentiment_row texts labels.

(** The locals of the loop after [i] iterations. *)
Definition sentiment_rows (i : nat) (acc : list scalar * list scalar) : Prop :=
  length acc.1 = i ∧ Forall2 sentiment_row acc.1 acc.2.

Lemma sentiment_rows_snoc i sentences sentiments text label :
  sentiment_rows i (sentences, sentiments) → sentiment_row text label →
  sentiment_rows (S i) (sentences ++ [text], sentiments ++ [label]).
Proof.
  intros [Hlen Hrows] Hrow. split; cbn [fst snd] in *.
  - rewrite length_app. simpl. lia.
  - apply Forall2_app; [done | by constructor].
Qed.

(** The loop of [_generate_sentiment_data]. *)
Definition sentiment_loop (n_samples : Z) : M world (list scalar * list scalar) :=
  for_fold (seq 0 (Z.to_nat n_samples)) ([], [])
    (fun '(sentences, sentiments) _ =>
       let! r := np_random_random in
       if Float.ltb f0_5 r then
         let! size := np_random_randint1 2 5 in
         let! words := np_random_choice positive_terms size in
         let sentence := "The market shows " +:+ join " " (str_of <$> words)
                         +:+ " with strong fundamentals." in
         ret (sentences ++ [SStr sentence], sentiments ++ [SStr "positive"])
       else
         let! size := np_random_randint1 2 5 in
         let! words := np_random_choice negative_terms size in
         let sentence := "Investors worry about " +:+ join " " (str_of <$> words)
                         +:+ " affecting returns." in
         ret (sentences ++ [SStr sentence], sentiments ++ [SStr "negative"])).

Lemma sentiment_loop_rows n :
  ensures (sentiment_loop n) (sentiment_rows (Z.to_nat n)).
Proof.
  unfold sentiment_loop.
  remember (seq 0 (Z.to_nat n)) as l eqn:El.
  replace (Z.to_nat n) with (length l) by (subst l; apply length_seq).
  apply ensures_for_fold; [split; [done | constructor] |].
  intros i [sentences sentiments] _ Hacc.
  eapply ensures_bind; [apply ensures_any | intros r _].
  destruct (Float.ltb f0_5 r).
  - eapply ensures_bind; [apply ensures_any | intros size _].
    eapply ensures_bind; [apply ensures_any | intros words _].
    apply ensures_ret. apply sentiment_rows_snoc; [done |].
    exists (str_of <$> words). by left.
  - eapply ensures_bind; [apply ensures_any | intros size _].
    eapply ensures_bind; [apply ensures_any | intros words _].
    apply ensures_ret. apply sentiment_rows_snoc; [done |].
    exists (str_of <$> words). by right.
Qed.

Lemma sentiment_loop_returns n :
  (∀ g, 2 ≤ (rng_randint1 2 5 g).1 < 5)%Z →
  returns (sentiment_loop n) (λ _, True).
Proof.
  intros Hsize. unfold sentiment_loop. apply returns_for_fold.
  intros [sentences sentiments] _.
  eapply returns_bind; [apply returns_random | intros r _].
  destruct (Float.ltb f0_5 r).
  - eapply returns_bind;
      [apply (returns_randint1 2 5 (λ z, 2 ≤ z < 5)%Z Hsize) | intros size Hs; cbv beta in Hs].
    eapply returns_bind; [apply returns_any_draw; lia | intros words _].
    by apply returns_ret.
  - eapply returns_bind;
      [apply (returns_randint1 2 5 (λ z, 2 ≤ z < 5)%Z Hsize) | intros size Hs; cbv beta in Hs].
    eapply returns_bind; [apply returns_any_draw; lia | intros words _].
    by apply returns_ret.
Qed.

Lemma sentiment_frame sentences sentiments n :
  sentiment_rows n (sentences, sentiments) →
  pd_DataFrame [("text", sentences); ("sentiment", sentiments)]
  = Ok [("text", sentences); ("sentiment", sentiments)].
Proof.
  intros [Hlen Hrows]. cbn [fst snd] in *.
  apply (pd_DataFrame_ok _ n). apply Forall2_length in Hrows.
  repeat constructor; cbn [snd]; congruence.
Qed.

(** Whenever the sentiment generator returns, its table has the two
    columns, [max(n_samples, 0)] rows, and on every row the label of the
    sentence's template. *)
Lemma sentiment_data_table n :
  ensures (_generate_sentiment_data n) (sentiment_table (Z.to_nat n)).
Proof.
  unfold _generate_sentiment_data.
  eapply ensures_bind; [apply ensures_any | intros _ _].
  eapply ensures_bind; [apply sentiment_loop_rows | intros [sentences sentiments] Hacc].
  apply ensures_lift. intros df. rewrite (sentiment_frame _ _ _ Hacc). intros [= <-].
  exists sentences, sentiments. destruct Hacc as [Hlen Hrows]. by split_and!.
Qed.

(** X3: when numpy's [randint(2, 5)] yields sizes within its bounds, the
    sentiment generator returns for every sample count, negative ones
    included: a table of the columns 'text' and 'sentiment' with
    [max(n_samples, 0)] rows, each row a sentence of the positive template
    labelled 'positive' or a sentence of the negative template labelled
    'negative'. *)
Theorem sentiment_data_rows (n : Z) :
  (∀ g, 2 ≤ (rng_randint1 2 5 g).1 < 5)%Z →
  ∀ w, ∃ df w',
    _generate_sentiment_data n w = (Ok df, w')
    ∧ ∃ texts labels,
        df = [("text", texts); ("sentiment", labels)]
        ∧ length texts = Z.to_nat n
        ∧ length labels = Z.to_nat n
        ∧ Forall2 sentiment_row texts labels.
Proof.
  intros Hsize.
  enough (returns (_generate_sentiment_data n) (sentiment_table (Z.to_nat n))) as Hr.
  { intros w. destruct (Hr w) as (df & w' & E & texts & labels & -> & Hlen & Hrows).
    eexists _, w'. split; [exact E |]. exists texts, labels. split_and!; try done.
    by rewrite <- (Forall2_length _ _ _ Hrows). }
  unfold _generate_sentiment_data.
  eapply returns_bind; [apply returns_seed | intros _ _].
  eapply returns_bind.
  { apply returns_ensures; [by apply sentiment_loop_returns | apply sentiment_loop_rows]. }
  intros [sentences sentiments] Hacc.
  eapply returns_lift; [by eapply sentiment_frame |].
  exists sentences, sentiments. destruct Hacc as [Hlen Hrows]. by split_and!.
Qed.

(** *** The spending table *)

(** A spending amount of the table: a float that is not below zero. *)
Definition not_negative (s : scalar) : Prop :=
  ∃ x, s = SFloat x ∧ Float.ltb x Float.zero = false.

(** The table of a run of the spending generator that returned. *)
Definition spending_table (n : Z) (df : DataFrame) : Prop :=
  ∃ dates spending income,
    df = [("date", STime <$> dates);
          ("spending", spending);
          ("income", income);
          ("day_of_month", (λ d, SInt (dt_day d)) <$> dates);
          ("day_of_week", (λ d, SInt (dt_dayofweek d)) <$> dates);
          ("month", (λ d, SInt (dt_month d)) <$> dates);
          ("is_weekend", (λ d, SInt (if (5 <=? dt_dayofweek d)%Z then 1 else 0)) <$> dates);
          ("is_month_end", (λ d, SInt (if (25 <=? dt_day d)%Z then 1 else 0)) <$> dates)]
    ∧ (0 ≤ n)%Z
    ∧ length dates = Z.to_nat n
    ∧ length spending = Z.to_nat n
    ∧ length income = Z.to_nat n
    ∧ Forall not_negative spending.

Lemma spending_data_run (n : Z) w df w' :
  _generate_spending_data n w = (Ok df, w') → spending_table n df.
Proof.
  unfold _generate_spending_data. intros H.
  apply bind_ok_inv in H as ([] & w1 & _ & H).
  apply bind_ok_inv in H as (dates & w2 & [Hdates ->]%lift_ok_inv & H).
  cbv zeta in H.
  apply bind_ok_inv in H as (noise & w3 & [Hn Hnoise]%draw_ok_inv & H).
  apply bind_ok_inv in H as (s1 & w4 & [[Hs1 Hs1']%elementwise_ok_inv ->]%lift_ok_inv & H).
  apply bind_ok_inv in H as (s2 & w5 & [[Hs2 Hs2']%elementwise_ok_inv ->]%lift_ok_inv & H).
  apply bind_ok_inv in H as (income & w6 & [_ Hincome]%draw_ok_inv & H).
  apply lift_ok_inv in H as [->%pd_DataFrame_ok_inv _].
  assert (length noise = Z.to_nat n) as Hlen_noise.
  { rewrite Hnoise, length_fmap. apply rng_normal_length. }
  rewrite !length_fmap in *.
  eexists dates, _, income. split; [reflexivity |].
  split_and!.
  - done.
  - congruence.
  - rewrite length_fmap. congruence.
  - rewrite Hincome, length_fmap. apply rng_normal_length.
  - apply Forall_fmap, Forall_true. intros x. eexists. split; [reflexivity |].
    apply maximum_zero_not_negative.
Qed.

(** X4: whenever the spending generator returns a table, the sample count
    was not negative, the table has one row per requested day in each of
    its eight columns, no spending amount is negative, and the calendar
    columns are those of the generated dates: 'is_weekend' is 1 exactly on
    the rows whose 'day_of_week' is at least 5 and 'is_month_end' is 1
    exactly on the rows whose 'day_of_month' is at least 25. *)
Theorem spending_data_table (n : Z) w df w' :
  _generate_spending_data n w = (Ok df, w') →
  (0 ≤ n)%Z
  ∧ df_len df = Z.to_nat n
  ∧ Forall (λ kc, length kc.2 = Z.to_nat n) df
  ∧ ∃ dates spending income,
      df = [("date", STime <$> dates);
            ("spending", spending);
            ("income", income);
            ("day_of_month", (λ d, SInt (dt_day d)) <$> dates);
            ("day_of_week", (λ d, SInt (dt_dayofweek d)) <$> dates);
            ("month", (λ d, SInt (dt_month d)) <$> dates);
            ("is_weekend",
             (λ d, SInt (if (5 <=? dt_dayofweek d)%Z then 1 else 0)) <$> dates);
            ("is_month_end",
             (λ d, SInt (if (25 <=? dt_day d)%Z then 1 else 0)) <$> dates)]
      ∧ Forall not_negative spending.
Proof.
  intros H. apply spending_data_run in H
    as (dates & sp & income & -> & Hn & Hdates & Hsp & Hincome & Hpos).
  split_and!.
  - exact Hn.
  - cbn [df_len]. by rewrite length_fmap.
  - repeat (apply Forall_cons; split; [cbn [snd]; by rewrite ?length_fmap |]).
    apply Forall_nil_2.
  - by exists dates, sp, income.
Qed.

(** *** The three tables together *)

(** X5: whenever [generate_synthetic_data] returns for a sample count
    [0 <= n < 3 * 2^49], the fraud table and the spending table have [n]
    rows each, the fraud table has [n - floor(0.8 n)] rows with the
    positive label, and the sentiment table has [n // 2] rows. *)
Theorem synthetic_data_row_counts (n : Z) w data w' :
  (0 ≤ n < 3 * 2 ^ 49)%Z →
  generate_synthetic_data n w = (Ok data, w') →
  Z.of_nat (df_len (fraud data)) = n
  ∧ Z.of_nat (fraud_rows (fraud data)) = (n - 4 * n / 5)%Z
  ∧ Z.of_nat (df_len (spending data)) = n
  ∧ Z.of_nat (df_len (sentiment data)) = (n / 2)%Z.
Proof.
  intros Hn H. unfold generate_synthetic_data in H.
  apply bind_ok_inv in H as ([] & w1 & _ & H).
  apply bind_ok_inv in H as (fraud_data & w2 & Hfraud & H).
  apply bind_ok_inv in H as (spending_data & w3 & Hspending & H).
  apply bind_ok_inv in H as (sentiment_data & w4 & Hsentiment & H).
  injection H as <- _. cbn [fraud spending sentiment].
  destruct (int_mul_0_8 n Hn) as (x & Hmul & Hint).
  assert (0 ≤ 4 * n / 5 ≤ n)%Z as Hk.
  { split; [apply Z.div_pos; lia | apply Z.div_le_upper_bound; lia]. }
  destruct (fraud_data_run n _ x Hmul Hint Hk w1) as (df & w2' & E & Hlen & Hrows).
  rewrite Hfraud in E. injection E as <- _.
  apply spending_data_run in Hspending
    as (dates & sp & income & -> & _ & Hdates & _).
  apply sentiment_data_table in Hsentiment as (texts & labels & -> & Htexts & _).
  split_and!; [done | done | |].
  - cbn [df_len]. rewrite length_fmap, Hdates. lia.
  - cbn [df_len]. rewrite Htexts. apply Z2Nat.id, Z.div_pos; lia.
Qed.

End GeneratorEdges.

Lemma fraud_data_negative_count_witness :
  (- (3 * 2 ^ 49) < -1 < 0)%Z
  ∧ (@_generate_fraud_data Toy.numpy (Toy.library Toy.scores) (-1) Toy.empty_world).1
    = Raise negative_dimensions.
Proof.
  split; [lia |].
  apply (@fraud_data_negative_count Toy.numpy (Toy.library Toy.scores) (-1)). lia.
Defined.

Lemma fraud_data_rows_in_class_order_witness :
  (0 ≤ 10 < 3 * 2 ^ 49)%Z
  ∧ ∃ df w',
      @_generate_fraud_data Toy.numpy (Toy.library Toy.scores) 10 Toy.empty_world
      = (Ok df, w')
      ∧ dict_get "is_fraud" df
        = Some (replicate 8 (SFloat Float.zero) ++ replicate 2 (SFloat Float.one)).
Proof.
  split; [lia |].
  destruct (@fraud_data_rows_in_class_order Toy.numpy (Toy.library Toy.scores) 10
              ltac:(lia) Toy.empty_world) as (df & w' & E & _ & _ & H).
  exists df, w'. split; [exact E | exact H].
Defined.

Lemma sentiment_data_rows_witness :
  (∀ g, 2 ≤ (@rng_randint1 Toy.numpy 2 5 g).1 < 5)%Z
  ∧ ∃ df w',
      @_generate_sentiment_data Toy.numpy (Toy.library Toy.scores) 3 Toy.empty_world
      = (Ok df, w')
      ∧ df_len df = 3.
Proof.
  assert (∀ g, 2 ≤ (@rng_randint1 Toy.numpy 2 5 g).1 < 5)%Z as Hsize.
  { intros g. simpl. pose proof (Z.mod_pos_bound (Toy.mix g) (5 - 2)). lia. }
  split; [exact Hsize |].
  destruct (@sentiment_data_rows Toy.numpy (Toy.library Toy.scores) 3 Hsize Toy.empty_world)
    as (df & w' & E & texts & labels & -> & Hlen & _).
  eexists _, w'. split; [exact E | exact Hlen].
Defined.

Lemma spending_data_table_witness :
  ∃ df w',
    @_generate_spending_data Toy.numpy (Toy.library Toy.scores) 10 Toy.empty_world
    = (Ok df, w')
    ∧ df_len df = 10
    ∧ ∃ spending, dict_get "spending" df = Some spending ∧ Forall not_negative spending.
Proof.
  destruct (@_generate_spending_data Toy.numpy (Toy.library Toy.scores) 10 Toy.empty_world)
    as [[df|e] w'] eqn:E.
  2:{ apply (f_equal (λ x, is_ok x.1)) in E. vm_compute in E. discriminate E. }
  exists df, w'. split; [reflexivity |].
  destruct (spending_data_table _ _ _ _ E)
    as (_ & Hlen & _ & dates & spending & income & -> & Hpos).
  split; [exact Hlen |].
  exists spending. split; [reflexivity | exact Hpos].
Defined.

Lemma synthetic_data_row_counts_witness :
  (0 ≤ 11 < 3 * 2 ^ 49)%Z
  ∧ ∃ data w',
      @generate_synthetic_data Toy.numpy (Toy.library Toy.scores) 11 Toy.empty_world
      = (Ok data, w')
      ∧ Z.of_nat (df_len (fraud data)) = 11%Z
      ∧ Z.of_nat (fraud_rows (fraud data)) = 3%Z
      ∧ Z.of_nat (df_len (spending data)) = 11%Z
      ∧ Z.of_nat (df_len (sentiment data)) = 5%Z.
Proof.
  split; [lia |].
  destruct (@generate_synthetic_data Toy.numpy (Toy.library Toy.scores) 11 Toy.empty_world)
    as [[data|e] w'] eqn:E.
  2:{ apply (f_equal (λ x, is_ok x.1)) in E. vm_compute in E. discriminate E. }
  exists data, w'. split; [reflexivity |].
  apply (synthetic_data_row_counts 11 _ _ _ ltac:(lia) E).
Defined.

(** ** What the trainers store, and what they do to their argument *)

Section TrainerResults.
Context `{NP : NumPy} `{LIB : Library}.

Lemma df_column_ok_inv name df c :
  df_column name df = Ok c → dict_get name df = Some c.
Proof. unfold df_column. by destruct (dict_get name df); intros [= <-]. Qed.

(** The caller's table after [train_spending_prediction_model]: the three
    lag columns, computed from the 'spending' column [sp]. *)
Definition with_lag_features (sp : list scalar) (data : DataFrame) : DataFrame :=
  dict_set "spending_rolling_mean" (series_rolling_mean 7 sp)
    (dict_set "spending_lag7" (series_shift 7 sp)
       (dict_set "spending_lag1" (series_shift 1 sp) data)).

Definition lag_features : list string :=
  ["spending_lag1"; "spending_lag7"; "spending_rolling_mean"].

Lemma with_lag_features_other sp data name :
  name ∉ lag_features → dict_get name (with_lag_features sp data) = dict_get name data.
Proof.
  unfold lag_features, with_lag_features. rewrite !not_elem_of_cons. intros (H1 & H2 & H3 & _).
  by rewrite !dict_get_set_ne.
Qed.

Definition spending_model : estimator := MLPClassifier [100; 50; 25]%Z 1000 42 "adaptive".

(** What a successful run of the spending trainer went through. *)
Lemma train_spending_run data w m s d' w' :
  train_spending_prediction_model data w = (Ok (m, s, d'), w') →
  ∃ sp X y X_train X_test y_train y_test q X_train_scaled p,
    dict_get "spending" data = Some sp
    ∧ d' = with_lag_features sp data
    ∧ df_columns (["income"; "day_of_month"; "day_of_week"; "month"; "is_weekend";
                   "is_month_end"] ++ lag_features) (frame_dropna d') = Ok X
    ∧ df_column "spending" (frame_dropna d') = Ok y
    ∧ train_test_split (Array2D X) (Array1D y) (dec 2) 42 None
      = Ok (X_train, X_test, y_train, y_test)
    ∧ fit_transform StandardScaler X_train = Ok (q, X_train_scaled)
    ∧ estimator_fit spending_model X_train_scaled (Some y_train) = Ok p
    ∧ m = PyEstimator spending_model p
    ∧ s = PyTransform StandardScaler q
    ∧ models w' = dict_set "spending_prediction" m (models w)
    ∧ scalers w' = dict_set "spending_prediction" s (scalers w)
    ∧ disk w' = disk w ∧ models_dir w' = models_dir w.
Proof.
  unfold train_spending_prediction_model. intros H.
  apply bind_ok_inv in H as ([] & w0 & ->%modify_ok_inv & H).
  apply bind_ok_inv in H as (sp & ? & [Hsp%df_column_ok_inv ->]%lift_ok_inv & H).
  apply bind_ok_inv in H as (sp2 & ? & [Hsp2%df_column_ok_inv ->]%lift_ok_inv & H).
  rewrite dict_get_set_ne in Hsp2 by done. rewrite Hsp in Hsp2. injection Hsp2 as <-.
  apply bind_ok_inv in H as (sp3 & ? & [Hsp3%df_column_ok_inv ->]%lift_ok_inv & H).
  rewrite !dict_get_set_ne in Hsp3 by done. rewrite Hsp in Hsp3. injection Hsp3 as <-.
  cbv zeta in H. fold (with_lag_features sp data) in H.
  apply bind_ok_inv in H as (X & ? & [HX ->]%lift_ok_inv & H).
  apply bind_ok_inv in H as (y & ? & [Hy ->]%lift_ok_inv & H).
  apply bind_ok_inv in H
    as ([[[X_train X_test] y_train] y_test] & ? & [Hsplit ->]%lift_ok_inv & H).
  apply bind_ok_inv in H as ([q X_train_scaled] & ? & [Hfit ->]%lift_ok_inv & H).
  apply bind_ok_inv in H as (X_test_scaled & ? & [_ ->]%lift_ok_inv & H).
  apply bind_ok_inv in H as (p & ? & [Hp ->]%lift_ok_inv & H).
  apply bind_ok_inv in H as ([] & ? & ->%modify_ok_inv & H).
  apply bind_ok_inv in H as ([] & ? & ->%modify_ok_inv & H).
  apply bind_ok_inv in H as (score & ? & [_ ->]%lift_ok_inv & H).
  apply bind_ok_inv in H as ([] & ? & ->%modify_ok_inv & H).
  injection H as <- <- <- <-.
  exists sp, X, y, X_train, X_test, y_train, y_test, q, X_train_scaled, p.
  by split_and!.
Qed.


(** X7: the spending trainer changes the table it is given: after a
    successful run the caller's table has the three lag columns, computed
    from its 'spending' column, and every other column as before, the
    'spending' column included; the rows that [dropna] removes are removed
    from the trainer's local copy only. *)
Theorem train_spending_changes_callers_table data w m s d' w' :
  train_spending_prediction_model data w = (Ok (m, s, d'), w') →
  ∃ sp,
    dict_get "spending" data = Some sp
    ∧ dict_get "spending_lag1" d' = Some (series_shift 1 sp)
    ∧ dict_get "spending_lag7" d' = Some (series_shift 7 sp)
    ∧ dict_get "spending_rolling_mean" d' = Some (series_rolling_mean 7 sp)
    ∧ (∀ name, name ∉ ["spending_lag1"; "spending_lag7"; "spending_rolling_mean"] →
         dict_get name d' = dict_get name data)
    ∧ dict_get "spending" d' = Some sp.
Proof.
  intros H. apply train_spending_run in H as (sp & ? & ? & ? & ? & ? & ? & ? & ? & ?
                                                & Hsp & -> & _).
  exists sp. unfold with_lag_features. split_and!.
  - done.
  - rewrite !dict_get_set_ne by done. apply dict_get_set_eq.
  - rewrite dict_get_set_ne by done. apply dict_get_set_eq.
  - apply dict_get_set_eq.
  - apply with_lag_features_other.
  - by rewrite !dict_get_set_ne.
Qed.

(** X8: a successful run of the sentiment trainer returns and stores,
    under 'sentiment_analysis' and under no other key, a multinomial naive
    Bayes classifier fitted on the TF-IDF features of the training part of
    a stratified 80/20 split, and, as the scaler entry, the TF-IDF
    vectorizer (1000 features, English stop words, unigrams and bigrams)
    fitted on the training texts only; it writes no file. *)
Theorem train_sentiment_stores data w m s w' :
  train_sentiment_analysis_model data w = (Ok (m, s), w') →
  (∃ X y X_train X_test y_train y_test q X_train_tfidf p,
     dict_get "text" data = Some X ∧ dict_get "sentiment" data = Some y
     ∧ train_test_split (Array1D X) (Array1D y) (dec 2) 42 (Some (Array1D y))
       = Ok (X_train, X_test, y_train, y_test)
     ∧ fit_transform (TfidfVectorizer 1000 "english" (1, 2)%Z) X_train
       = Ok (q, X_train_tfidf)
     ∧ estimator_fit MultinomialNB X_train_tfidf (Some y_train) = Ok p
     ∧ m = PyEstimator MultinomialNB p
     ∧ s = PyTransform (TfidfVectorizer 1000 "english" (1, 2)%Z) q)
  ∧ dict_get "sentiment_analysis" (models w') = Some m
  ∧ dict_get "sentiment_analysis" (scalers w') = Some s
  ∧ (∀ k, k ≠ "sentiment_analysis" →
       dict_get k (models w') = dict_get k (models w)
       ∧ dict_get k (scalers w') = dict_get k (scalers w))
  ∧ disk w' = disk w.
Proof.
  unfold train_sentiment_analysis_model. intros H.
  apply bind_ok_inv in H as ([] & w0 & ->%modify_ok_inv & H).
  apply bind_ok_inv in H as (X & ? & [HX%df_column_ok_inv ->]%lift_ok_inv & H).
  apply bind_ok_inv in H as (y & ? & [Hy%df_column_ok_inv ->]%lift_ok_inv & H).
  apply bind_ok_inv in H
    as ([[[X_train X_test] y_train] y_test] & ? & [Hsplit ->]%lift_ok_inv & H).
  cbv zeta in H.
  apply bind_ok_inv in H as ([q X_train_tfidf] & ? & [Hfit ->]%lift_ok_inv & H).
  apply bind_ok_inv in H as (X_test_tfidf & ? & [_ ->]%lift_ok_inv & H).
  apply bind_ok_inv in H as (p & ? & [Hp ->]%lift_ok_inv & H).
  apply bind_ok_inv in H as ([] & ? & ->%modify_ok_inv & H).
  apply bind_ok_inv in H as ([] & ? & ->%modify_ok_inv & H).
  apply bind_ok_inv in H as (score & ? & [_ ->]%lift_ok_inv & H).
  apply bind_ok_inv in H as ([] & ? & ->%modify_ok_inv & H).
  injection H as <- <- <-.
  cbn [models scalers disk set_log set_models set_scalers].
  split_and!.
  - by exists X, y, X_train, X_test, y_train, y_test, q, X_train_tfidf, p.
  - apply dict_get_set_eq.
  - apply dict_get_set_eq.
  - intros k Hk. by rewrite !dict_get_set_ne.
  - done.
Qed.



(** Reading several columns of a table raises only for a column the table
    lacks, and returns only when it has them all. *)
Lemma df_columns_raise_inv (names : list string) (df : DataFrame) e :
  df_columns names df = Raise e →
  ∃ k, k ∈ names ∧ dict_get k df = None ∧ e = KeyError k.
Proof.
  induction names as [|n names IH]; simpl; [discriminate |].
  destruct (dict_get n df) as [c|] eqn:En.
  - destruct (df_columns names df) as [cs|e']; [discriminate |].
    intros [= <-]. destruct (IH eq_refl) as (k & Hk & Hnone & ->).
    exists k. split_and!; [by apply elem_of_cons; right | done | done].
  - intros [= <-]. exists n. split_and!; [by apply elem_of_cons; left | done | done].
Qed.

Lemma df_columns_ok_inv (names : list string) (df : DataFrame) cs name :
  df_columns names df = Ok cs → name ∈ names → is_Some (dict_get name df).
Proof.
  revert cs. induction names as [|n names IH]; intros cs; simpl;
    [by intros _ ?%elem_of_nil |].
  destruct (dict_get n df) as [c|] eqn:En; [| discriminate].
  destruct (df_columns names df) as [cs'|e']; [| discriminate].
  intros _ [->|Hin]%elem_of_cons; [by rewrite En | by eapply IH].
Qed.

(** X9: a table that lacks one of the columns the fraud trainer reads (the
    ten features and 'is_fraud') makes it raise a [KeyError]; nothing is
    stored, and only the opening line is logged. *)
Theorem train_fraud_missing_column data w (name : string) :
  name ∈ fraud_columns →
  dict_get name data = None →
  ∃ k, train_fraud_detection_model data w
       = (Raise (KeyError k),
          set_log (λ l, l ++ [(INFO, "Training fraud detection model...")]) w).
Proof.
  intros Hin Hname. unfold fraud_columns in *.
  unfold train_fraud_detection_model. cbv zeta. fold fraud_features.
  unfold bind, logger_info, modify, lift.
  destruct (df_columns fraud_features data) as [X|e] eqn:EX.
  - exists name.
    apply elem_of_app in Hin as [Hin|Hin].
    + destruct (df_columns_ok_inv _ _ _ _ EX Hin) as [c Hc]. congruence.
    + apply list_elem_of_singleton in Hin as ->. unfold df_column. by rewrite Hname.
  - destruct (df_columns_raise_inv _ _ _ EX) as (k & _ & _ & ->). by exists k.
Qed.

End TrainerResults.

(** The spending and sentiment tables of ten and of five samples the toy
    generator gives. *)
Definition toy_spending_table : DataFrame :=
  Eval vm_compute in
    match (_generate_spending_data (LIB := Toy.library Toy.scores) 10 Toy.empty_world).1 with
    | Ok df => df
    | Raise _ => []
    end.

Definition toy_sentiment_table : DataFrame :=
  Eval vm_compute in
    match (_generate_sentiment_data (LIB := Toy.library Toy.scores) 5 Toy.empty_world).1 with
    | Ok df => df
    | Raise _ => []
    end.


Lemma train_spending_changes_callers_table_witness :
  ∃ m s d' w',
    @train_spending_prediction_model Toy.numpy (Toy.library Toy.scores)
      toy_spending_table Toy.empty_world = (Ok (m, s, d'), w')
    ∧ dict_get "spending" d' = dict_get "spending" toy_spending_table
    ∧ is_Some (dict_get "spending_lag1" d').
Proof.
  destruct (@train_spending_prediction_model Toy.numpy (Toy.library Toy.scores)
              toy_spending_table Toy.empty_world) as [[[[m s] d']|e] w'] eqn:E.
  2:{ apply (f_equal (λ x, is_ok x.1)) in E. vm_compute in E. discriminate E. }
  exists m, s, d', w'. split; [reflexivity |].
  destruct (train_spending_changes_callers_table _ _ _ _ _ _ E)
    as (sp & Hsp & Hlag1 & _ & _ & _ & Hsp').
  split; [by rewrite Hsp, Hsp' | by rewrite Hlag1].
Defined.

Lemma train_sentiment_stores_witness :
  ∃ m s w',
    @train_sentiment_analysis_model Toy.numpy (Toy.library Toy.scores)
      toy_sentiment_table Toy.empty_world = (Ok (m, s), w')
    ∧ dict_get "sentiment_analysis" (models w') = Some m
    ∧ dict_get "sentiment_analysis" (scalers w') = Some s.
Proof.
  destruct (@train_sentiment_analysis_model Toy.numpy (Toy.library Toy.scores)
              toy_sentiment_table Toy.empty_world) as [[[m s]|e] w'] eqn:E.
  2:{ apply (f_equal (λ x, is_ok x.1)) in E. vm_compute in E. discriminate E. }
  exists m, s, w'. split; [reflexivity |].
  destruct (train_sentiment_stores _ _ _ _ _ E) as (_ & Hm & Hs & _).
  split; [exact Hm | exact Hs].
Defined.

Lemma train_fraud_missing_column_witness :
  "amount" ∈ fraud_columns
  ∧ ∃ k, @train_fraud_detection_model Toy.numpy (Toy.library Toy.scores) [] Toy.empty_world
         = (Raise (KeyError k),
            set_log (λ l, l ++ [(INFO, "Training fraud detection model...")])
              Toy.empty_world).
Proof.
  assert ("amount" ∈ fraud_columns) as Hin by (apply elem_of_cons; by left).
  split; [exact Hin |].
  destruct (@train_fraud_missing_column Toy.numpy (Toy.library Toy.scores) []
              Toy.empty_world "amount" Hin eq_refl) as (k & H).
  exists k. exact H.
Defined.

(** ** Training runs, and [main] *)

Section RunsOfMain.
Context `{NP : NumPy} `{LIB : Library}.

Implicit Types (w : world) (fs : gmap string file) (d : dict pyobj).













(** X14: whatever state [main] starts from and whether its training run
    returns or raises, it leaves the driver with every scaler stored next
    to a model of the same name, and with models under the four training
    names only, each name once. *)
Theorem main_training_keeps_scalers_with_models dir data_dir' now w :
  let out := main dir data_dir' false now w in
  dict_keys (scalers out.2) ⊆ dict_keys (models out.2)
  ∧ dict_keys (models out.2) ⊆ trained_names
  ∧ NoDup (dict_keys (models out.2))
  ∧ NoDup (dict_keys (scalers out.2)).
Proof.
  cbv zeta. unfold main, bind, modify.
  pose proof (train_all_models_trained now (init dir data_dir' w) (init_trained _ _ _))
    as [Hm Hs Hnames Hsm].
  split_and!; [exact Hsm | exact Hnames | exact Hm | exact Hs].
Qed.

(** *** Loading *)

(** Loading appends to a mapping; it removes and reorders nothing. *)
Lemma load_entries_keys fs dir names d :
  ∃ new, dict_keys (load_entries fs dir names d).2 = dict_keys d ++ new.
Proof.
  revert d. induction names as [|n names IH]; intros d; simpl.
  - exists []. by rewrite app_nil_r.
  - destruct (fs !! _) as [[o| |]|].
    + destruct (IH (dict_set n o d)) as (new & ->).
      destruct (decide (n ∈ dict_keys d)).
      * rewrite dict_keys_set_present by done. by exists new.
      * rewrite dict_keys_set_fresh by done. exists (n :: new). by rewrite <- app_assoc.
    + exists []. by rewrite app_nil_r.
    + exists []. by rewrite app_nil_r.
    + apply IH.
Qed.

Lemma load_entries_unlisted fs dir names d name :
  name ∉ names → dict_get name (load_entries fs dir names d).2 = dict_get name d.
Proof.
  revert d. induction names as [|n names IH]; intros d Hname; simpl; [done |].
  apply not_elem_of_cons in Hname as [Hne Hname].
  destruct (fs !! _) as [[o| |]|]; try done.
  - rewrite IH by done. by apply dict_get_set_ne.
  - by apply IH.
Qed.

(** X15: [load_models] merges into the mappings it finds: the names present
    before the call keep their positions (the loaded names that are new are
    appended), and a name that the manifest does not list under 'models'
    keeps its model. *)
Theorem load_models_keeps_unlisted w md name :
  disk w !! manifest_path w = Some (FJson md) →
  name ∉ md_models md →
  let out := load_models w in
  dict_get name (models out.2) = dict_get name (models w)
  ∧ (∃ new, dict_keys (models out.2) = dict_keys (models w) ++ new)
  ∧ (∃ new, dict_keys (scalers out.2) = dict_keys (scalers w) ++ new).
Proof.
  intros Hmd Hname. cbv zeta.
  destruct (load_models_fields w) as (_ & -> & ->).
  unfold load_outcome, load_result. fold (manifest_path w). rewrite Hmd.
  destruct (load_entries (disk w) (models_dir w) (md_models md) (models w)).1 eqn:E;
    cbn [fst snd].
  - split_and!; [by apply load_entries_unlisted | apply load_entries_keys
                 | apply load_entries_keys].
  - split_and!; [by apply load_entries_unlisted | apply load_entries_keys |].
    exists []. by rewrite app_nil_r.
Qed.

Lemma load_entries_app fs dir pre post d :
  load_entries fs dir (pre ++ post) d =
    match (load_entries fs dir pre d).1 with
    | Ok _ => load_entries fs dir post (load_entries fs dir pre d).2
    | Raise e => load_entries fs dir pre d
    end.
Proof.
  revert d. induction pre as [|n pre IH]; intros d; simpl; [done |].
  destruct (fs !! _) as [[o| |]|]; try done; apply IH.
Qed.

Lemma load_entries_loaded fs dir names d name o :
  readable fs dir names → name ∈ names →
  fs !! path_join dir (name +:+ ".joblib") = Some (FJoblib o) →
  dict_get name (load_entries fs dir names d).2 = Some o.
Proof.
  intros Hread Hin Hfile. revert d.
  induction names as [|n names IH]; intros d; [by apply elem_of_nil in Hin |].
  assert (readable fs dir names) as Hread'.
  { intros k f Hk. apply Hread. by apply elem_of_cons; right. }
  simpl. destruct (decide (name = n)) as [<-|Hne].
  - rewrite Hfile. apply load_entries_keeps; [done | apply dict_get_set_eq].
  - apply elem_of_cons in Hin as [?|Hin]; [done |].
    destruct (fs !! path_join dir (n +:+ ".joblib")) as [f|] eqn:Ef; [| by apply IH].
    destruct (Hread n f) as [o' ->]; [by apply elem_of_cons; left | done |].
    by apply IH.
Qed.

(** X16: loading is not atomic.  When the manifest lists a model whose file
    is not a joblib pickle, [load_models] raises at that file; the models
    listed before it, whose files are readable, are in the mapping when the
    exception leaves the method, and no scaler has been loaded. *)
Theorem load_models_stops_at_unreadable_file w md pre bad post f :
  disk w !! manifest_path w = Some (FJson md) →
  md_models md = pre ++ bad :: post →
  readable (disk w) (models_dir w) pre →
  disk w !! path_join (models_dir w) (bad +:+ ".joblib") = Some f →
  (∀ o, f ≠ FJoblib o) →
  let out := load_models w in
  is_ok out.1 = false
  ∧ (∀ name o, name ∈ pre →
       disk w !! path_join (models_dir w) (name +:+ ".joblib") = Some (FJoblib o) →
       dict_get name (models out.2) = Some o)
  ∧ scalers out.2 = scalers w.
Proof.
  intros Hmd Hsplit Hread Hfile Hbad. cbv zeta.
  destruct (load_models_fields w) as (-> & -> & ->).
  unfold load_outcome, load_result. fold (manifest_path w). rewrite Hmd, Hsplit.
  rewrite load_entries_app.
  rewrite (load_entries_readable _ _ _ (models w) Hread).
  cbn [load_entries]. rewrite Hfile.
  destruct f as [o| |]; [by destruct (Hbad o) | |]; cbn [fst snd is_ok];
    (split_and!; [done | | done]);
    intros name o Hin Hf; by apply load_entries_loaded.
Qed.



(** *** Saving *)






End RunsOfMain.






Lemma load_models_keeps_unlisted_witness :
  let w := @Toy.dangling_world (Toy.library Toy.scores) in
  dict_get "spending_prediction" (models (load_models w).2)
  = dict_get "spending_prediction" (models w).
Proof.
  destruct (load_models_keeps_unlisted (@Toy.dangling_world (Toy.library Toy.scores))
              {| trained_at := "2024-01-01T00:00:00"; md_models := ["fraud_detection"];
                 md_scalers := []; version := "1.0.0" |} "spending_prediction")
    as (H & _).
  - reflexivity.
  - intros [H|H]%elem_of_cons; [discriminate H | by apply elem_of_nil in H].
  - exact H.
Defined.

(** A models directory whose manifest lists two models: the file of the
    first holds a classifier, the file of the second is not a pickle. *)
Definition toy_corrupt_world : @world Toy.numpy (Toy.library Toy.scores) :=
  @set_disk Toy.numpy (Toy.library Toy.scores)
    (λ _, {[ "models/metadata.json" :=
               FJson {| trained_at := "2024-01-01T00:00:00";
                        md_models := ["fraud_detection"; "spending_prediction"];
                        md_scalers := ["fraud_detection"]; version := "1.0.0" |};
             "models/fraud_detection.joblib" := FJoblib toy_forest;
             "models/spending_prediction.joblib" := FRaw "truncated" ]})
    Toy.empty_world.

Lemma load_models_stops_at_unreadable_file_witness :
  let out := load_models toy_corrupt_world in
  is_ok out.1 = false
  ∧ dict_get "fraud_detection" (models out.2) = Some toy_forest
  ∧ scalers out.2 = [].
Proof.
  destruct (load_models_stops_at_unreadable_file toy_corrupt_world
              {| trained_at := "2024-01-01T00:00:00";
                 md_models := ["fraud_detection"; "spending_prediction"];
                 md_scalers := ["fraud_detection"]; version := "1.0.0" |}
              ["fraud_detection"] "spending_prediction" [] (FRaw "truncated"))
    as (H1 & H2 & H3).
  - reflexivity.
  - reflexivity.
  - intros n f Hn Hf. apply list_elem_of_singleton in Hn as ->.
    vm_compute in Hf. injection Hf as <-. by eexists.
  - reflexivity.
  - intros o. discriminate.
  - split_and!; [exact H1 | | exact H3].
    apply (H2 "fraud_detection" toy_forest); [apply elem_of_cons; by left | reflexivity].
Defined.




